(** * Brain GIF Generator: the render job of [app.py]

    A shallow embedding of the "Main Panel for Output" of [app.py]
    (the block guarded by [generate_button]) together with the helper
    [get_fsaverage_path].  The widgets of the sidebar are the inputs of
    the script; their values are gathered in the record [Config].

    The script threads the process environment [os.environ] and may
    raise; every call into Streamlit, MNE, PyVista, imageio or the file
    system is recorded, in order, in a log of events.  What the external
    libraries answer is given by a record [Libs] of functions, so that
    every theorem below holds for every behaviour of these libraries.

    What is taken for granted about the outside world:
    - the calls of Streamlit ([st.error], [st.info], ...) return;
    - removing the temporary directory returns;
    - the libraries leave [os.environ] alone;
    - [frames_dir], just made by [mkdir], holds the files that
      [save_image] wrote there and nothing else, and [imread] returns the
      picture that was saved;
    - no file outside [frames_dir] matches the pattern given to [glob].
      When the path of [frames_dir] holds a wildcard of [glob] ([*], [?]
      or [[]), [glob] reads the directory part as a pattern too: which of
      the frames it then finds is an answer of the library
      ([glob_magic]), about which nothing is assumed;
    - [st.cache_resource] is left out: [get_fsaverage_path] runs its body
      at every call. *)

From Stdlib Require Import Ascii DecimalString DecimalNat QArith.
From stdpp Require Import gmap strings list fin_maps sorting.

Open Scope Z_scope.
Open Scope nat_scope.

(** ** Python values *)

Abbreviation bytes := (list Byte.byte).
Abbreviation environ := (gmap string string).

(** A raised exception, with [str(e)].  [Exception] stands for an instance
    of the class [Exception] or of one of its subclasses, the only ones an
    [except Exception] clause handles; [BaseException] stands for the others
    ([KeyboardInterrupt], [SystemExit], ...). *)
Inductive exn : Type :=
| Exception (msg : string)
| BaseException (msg : string).

Definition str (e : exn) : string :=
  match e with Exception msg | BaseException msg => msg end.

Inductive result (A : Type) : Type :=
| Ok (a : A)
| Raise (e : exn).
Arguments Ok {A} a.
Arguments Raise {A} e.

(** The values stored in the dictionary [plot_kwargs]. *)
Inductive value : Type :=
| VStr (s : string)
| VBool (b : bool)
| VInt (z : Z)
| VList (l : list string)
| VTuple (a b : Z)
| VPath (p : string).

Abbreviation kwargs := (gmap string value).

(** ** Strings: [str(n)], [f'{i:03d}'], path joining, [fnmatch] *)

(** [str(n)] for a natural number. *)
Definition str_of_nat (n : nat) : string :=
  NilZero.string_of_uint (Nat.to_uint n).

Fixpoint zeros (k : nat) : string :=
  match k with
  | O => ""
  | S k' => String "0"%char (zeros k')
  end.

(** [f'{i:03d}']: decimal digits, padded with zeros on the left up to a
    width of three; longer numbers are not truncated. *)
Definition format_03d (i : nat) : string :=
  let s := str_of_nat i in
  zeros (3 - String.length s) +:+ s.

(** [f'frame_{i:03d}.png'] *)
Definition frame_name (i : nat) : string :=
  "frame_" +:+ format_03d i +:+ ".png".

(** [Path / name] *)
Definition joinpath (p name : string) : string := p +:+ "/" +:+ name.
Infix "</>" := joinpath (at level 50, left associativity).

(** [', '.join(l)] is [String.concat ", " l]. *)

Fixpoint strip_prefix (p s : string) : option string :=
  match p with
  | EmptyString => Some s
  | String a p' =>
      match s with
      | String b s' => if Ascii.eqb a b then strip_prefix p' s' else None
      | EmptyString => None
      end
  end.

Fixpoint ends_with (suf s : string) : bool :=
  if String.eqb s suf then true
  else match s with
       | EmptyString => false
       | String _ s' => ends_with suf s'
       end.

(** [fnmatch(name, 'frame_*.png')] *)
Definition fnmatch_frame (name : string) : bool :=
  match strip_prefix "frame_" name with
  | Some rest => ends_with ".png" rest
  | None => false
  end.

(** [glob.has_magic(s)]: does [s] hold one of the wildcards [*], [?] and
    [[] of [glob]? *)
Fixpoint has_magic (s : string) : bool :=
  match s with
  | EmptyString => false
  | String c s' =>
      (Ascii.eqb c "*" || Ascii.eqb c "?" || Ascii.eqb c "[" || has_magic s')%bool
  end.

(** For a directory whose path holds no wildcard, [glob] lists the
    directory and keeps the entries that [fnmatch] accepts: is [path] an
    entry of [frames_dir] whose name matches ['frame_*.png']? *)
Definition glob_match (frames_dir path : string) : bool :=
  match strip_prefix (frames_dir +:+ "/") path with
  | Some entry => fnmatch_frame entry
  | None => false
  end.

(** [seq[::step]] for [step >= 1]: the elements at indices [0], [step],
    [2*step], ...  [skip] counts the elements still to drop before the
    next one is taken. *)
Fixpoint every_nth {A} (skip step : nat) (l : list A) : list A :=
  match l with
  | [] => []
  | x :: l' =>
      match skip with
      | O => x :: every_nth (step - 1) step l'
      | S k => every_nth k step l'
      end
  end.

(** The least [c] with [a <= c * b]. *)
Definition ceil_div (a b : nat) : nat := (a + b - 1) / b.

(** ** The render job *)

Section App.

(** Python floats (time points, frame duration) are only passed on to the
    libraries; the source estimate, the [Brain] figure and the pixel arrays
    are opaque objects of the libraries. *)
Context {float Stc Brain Image : Type}.

(** The uploaded file. *)
Record UploadedFile := {
  name : string;
  getbuffer : bytes
}.

(** The values of the sidebar widgets. *)
Record Config := {
  transparent_bg : bool;
  colormap_selection : string;
  background_color : string;
  show_colorbar : bool;
  cortex_selection : string;
  hemi_selection : string;
  view_selection : list string;
  smoothing_steps : Z;
  frame_step : nat;
  gif_duration : float
}.

(** The animated file written by [imageio.mimsave]. *)
Record gif := {
  frames : list Image;
  duration : float;
  loop : Z;
  disposal : Z
}.

Inductive content : Type :=
| Bytes (b : bytes)
| Png (img : Image)
| Gif (g : gif).

(** What the script does that can be observed from outside, in order.  A
    call into a library is logged when it is made, whatever its outcome;
    [Wrote] is logged once a file has been written. *)
Inductive event : Type :=
(* Streamlit *)
| StSpinner (text : string)
| StInfo (body : string)
| StProgress (value : Z)
| StProgressUpdate (num den : nat)   (* progress_bar.progress(num / den) *)
| StSuccess (body : string)
| StImage (image caption : string)
| StDownloadButton (label : string) (data : gif) (file_name mime : string)
| StError (body : string)
(* files *)
| Mkdtemp
| RmTree (dir : string)
| OpenWrite (path : string)
| OpenRead (path : string)
| Mkdir (path : string)
| Wrote (path : string) (c : content)
(* MNE, PyVista, imageio *)
| SetBackend (backend : string)
| FetchFsaverage
| ReadSourceEstimate (path : string)
| StcPlot (kw : kwargs)
| SetTime (t : float)
| SaveImage (path : string)
| BrainClose
| Imread (path : string)
| Mimsave (path : string) (images : list Image) (duration : float) (loop disposal : Z).

(** The answers of the libraries: each call returns or raises. *)
Record Libs := {
  mkdtemp : result string;                          (* tempfile.TemporaryDirectory() *)
  open_wb : string → result unit;                   (* open(path, "wb") and write *)
  open_rb : string → result unit;                   (* open(path, "rb") *)
  mkdir : string → result unit;                     (* Path.mkdir() *)
  parent : string → string;                         (* Path(p).parent *)
  set_3d_backend : string → result unit;            (* mne.viz.set_3d_backend *)
  fetch_fsaverage : result string;                  (* mne.datasets.fetch_fsaverage *)
  read_source_estimate : string → bytes → result Stc;
  times : Stc → list float;                         (* stc.times *)
  plot : Stc → kwargs → result Brain;               (* stc.plot with keyword arguments *)
  set_time : Brain → float → result Brain;          (* brain.set_time(t) *)
  save_image : Brain → string → result Image;       (* brain.save_image(path) *)
  close : Brain → result unit;                      (* brain.close() *)
  imread : string → result unit;                    (* imageio.imread, decoding *)
  mimsave : string → list Image → float → Z → Z → result unit;
  glob_magic : string → list string → list string
    (* glob.glob(pattern) for a pattern with a wildcard in its directory
       part, given the paths of the files written *)
}.

Record outcome (A : Type) := Outcome {
  final_env : environ;
  log : list event;
  res : result A
}.
Arguments Outcome {A} _ _ _.
Arguments final_env {A} _.
Arguments log {A} _.
Arguments res {A} _.

(** State ([os.environ]), output (the log) and exceptions. *)
Definition M (A : Type) : Type := environ → outcome A.

Definition ret {A} (a : A) : M A := λ env, Outcome env [] (Ok a).

Definition bind {A B} (m : M A) (f : A → M B) : M B :=
  λ env,
    match m env with
    | Outcome env1 log1 (Ok a) =>
        match f a env1 with
        | Outcome env2 log2 r => Outcome env2 (log1 ++ log2) r
        end
    | Outcome env1 log1 (Raise e) => Outcome env1 log1 (Raise e)
    end.

Notation "'let*' x := m 'in' k" := (bind m (λ x, k))
  (at level 10, x name, m at level 100, k at level 200, only parsing).
Notation "m >> k" := (bind m (λ _, k))
  (at level 100, k at level 200, right associativity, only parsing).

Definition emit (ev : event) : M unit := λ env, Outcome env [ev] (Ok tt).
Definition raise {A} (e : exn) : M A := λ env, Outcome env [] (Raise e).
Definition lift {A} (r : result A) : M A := λ env, Outcome env [] r.

(** A call into a library: logged, then answered. *)
Definition call {A} (ev : event) (r : result A) : M A :=
  emit ev >> lift r.

Definition environ_set (k v : string) : M unit :=
  λ env, Outcome (<[k := v]> env) [] (Ok tt).
Definition environ_contains (k : string) : M bool :=
  λ env, Outcome env [] (Ok (bool_decide (is_Some (env !! k)))).
Definition environ_del (k : string) : M unit :=
  λ env, Outcome (delete k env) [] (Ok tt).

(** [try: m except Exception as e: h e] *)
Definition try_except {A} (m : M A) (h : exn → M A) : M A :=
  λ env,
    match m env with
    | Outcome env1 log1 (Raise (Exception msg)) =>
        match h (Exception msg) env1 with
        | Outcome env2 log2 r => Outcome env2 (log1 ++ log2) r
        end
    | o => o
    end.

(** [try: m finally: f] *)
Definition try_finally {A} (m : M A) (f : M unit) : M A :=
  λ env,
    match m env with
    | Outcome env1 log1 r =>
        match f env1 with
        | Outcome env2 log2 (Ok _) => Outcome env2 (log1 ++ log2) r
        | Outcome env2 log2 (Raise e) => Outcome env2 (log1 ++ log2) (Raise e)
        end
    end.

Variable libs : Libs.

(** [with tempfile.TemporaryDirectory() as temp_dir: body]; the directory
    is removed when the block is left, normally or not. *)
Definition with_TemporaryDirectory {A} (body : string → M A) : M A :=
  let* temp_dir := call Mkdtemp (mkdtemp libs) in
  try_finally (body temp_dir) (emit (RmTree temp_dir)).

(** [get_fsaverage_path()] *)
Definition get_fsaverage_path : M string :=
  let* fs_dir := call FetchFsaverage (fetch_fsaverage libs) in
  ret (parent libs fs_dir).

(** [stc.times[::frame_step]]; NumPy refuses a step of zero. *)
Definition slice_step {A} (l : list A) (step : nat) : M (list A) :=
  match step with
  | O => raise (Exception "slice step cannot be zero")
  | S _ => ret (every_nth 0 step l)
  end.

(** The dictionary [plot_kwargs], lines 136-153. *)
Definition plot_kwargs (cfg : Config) (subjects_dir : string) : kwargs :=
  let kw : kwargs :=
    list_to_map [
      ("subject", VStr "fsaverage");
      ("subjects_dir", VPath subjects_dir);
      ("hemi", VStr (hemi_selection cfg));
      ("views", VList (view_selection cfg));
      ("smoothing_steps", VInt (smoothing_steps cfg));
      ("time_viewer", VBool false);
      ("show_traces", VBool false);
      ("colormap", VStr (colormap_selection cfg));
      ("colorbar", VBool (show_colorbar cfg));
      ("cortex", VStr (cortex_selection cfg));
      ("size", VTuple 1600 800)
    ] in
  if transparent_bg cfg
  then <["transparent" := VBool true]> kw
  else <["background" := VStr (background_color cfg)]> kw.

(** The frame loop, lines 162-166.  [files] is the content of [frames_dir],
    keyed by path; [brain] is the figure, which [set_time] updates. *)
Fixpoint frame_loop (total : nat) (frames_dir : string) (i : nat)
    (ts : list float) (brain : Brain) (files : gmap string Image)
    : M (Brain * gmap string Image) :=
  match ts with
  | [] => ret (brain, files)
  | t :: ts' =>
      let* brain' := call (SetTime t) (set_time libs brain t) in
      let screenshot_path := frames_dir </> frame_name i in
      let* img := call (SaveImage screenshot_path)
                 (save_image libs brain' screenshot_path) in
      emit (Wrote screenshot_path (Png img)) >>
      emit (StProgressUpdate (i + 1) total) >>
      frame_loop total frames_dir (S i) ts' brain'
                 (<[screenshot_path := img]> files)
  end.

(** [glob.glob(str(frames_dir / 'frame_*.png'))].  When the path of
    [frames_dir] holds no wildcard: the entries of the directory whose name
    matches, in the order of the directory listing.  When it holds one, the
    directory part is a pattern as well, and [frames_dir] itself need not
    match it: the answer is left to [glob_magic], of which only the files
    that exist are kept. *)
Definition glob_frames (frames_dir : string) (files : gmap string Image)
    : list string :=
  if has_magic frames_dir
  then filter (λ path, is_Some (files !! path))
              (glob_magic libs (frames_dir </> "frame_*.png")
                          (map_to_list files).*1)
  else filter (λ path, Is_true (glob_match frames_dir path))
              (map_to_list files).*1.

(** [sorted(l)] on strings: ascending in the order of code points. *)
Definition sorted (l : list string) : list string :=
  merge_sort String.le l.

(** [imageio.imread(filename)] *)
Definition imread_file (files : gmap string Image) (filename : string)
    : M Image :=
  call (Imread filename) (imread libs filename) >>
  match files !! filename with
  | Some img => ret img
  | None => raise (Exception ("No such file: " +:+ filename))
  end.

(** [[imageio.imread(filename) for filename in frame_files]] *)
Fixpoint imread_all (files : gmap string Image) (frame_files : list string)
    : M (list Image) :=
  match frame_files with
  | [] => ret []
  | filename :: rest =>
      let* img := imread_file files filename in
      let* imgs := imread_all files rest in
      ret (img :: imgs)
  end.

(** Lines 123-183: load, render, screenshots, GIF assembly. *)
Definition make_gif (cfg : Config) (uploaded_file : UploadedFile)
    (temp_dir : string) : M (string * gif) :=
  let temp_stc_path := temp_dir </> name uploaded_file in
  call (OpenWrite temp_stc_path) (open_wb libs temp_stc_path) >>
  emit (Wrote temp_stc_path (Bytes (getbuffer uploaded_file))) >>
  emit (StSpinner "Loading data and preparing visualization...") >>
  call (SetBackend "pyvista") (set_3d_backend libs "pyvista") >>
  let* subjects_dir := get_fsaverage_path in
  let* stc := call (ReadSourceEstimate temp_stc_path)
             (read_source_estimate libs temp_stc_path
                                   (getbuffer uploaded_file)) in
  let* times_to_sample := slice_step (times libs stc) (frame_step cfg) in
  let kw := plot_kwargs cfg subjects_dir in
  let* brain := call (StcPlot kw) (plot libs stc kw) in
  emit (StInfo ("Generating " +:+ str_of_nat (length times_to_sample)
                +:+ " frames...")) >>
  emit (StProgress 0) >>
  let frames_dir := temp_dir </> "frames" in
  call (Mkdir frames_dir) (mkdir libs frames_dir) >>
  let* bf := frame_loop (length times_to_sample) frames_dir 0
                  times_to_sample brain ∅ in
  call BrainClose (close libs bf.1) >>
  emit (StSpinner "Assembling GIF...") >>
  let frame_files := sorted (glob_frames frames_dir bf.2) in
  let* images := imread_all bf.2 frame_files in
  let gif_path := temp_dir </> "brain_animation.gif" in
  call (Mimsave gif_path images (gif_duration cfg) 0 2)
       (mimsave libs gif_path images (gif_duration cfg) 0 2) >>
  let g := {| frames := images; duration := gif_duration cfg;
              loop := 0; disposal := 2 |} in
  emit (Wrote gif_path (Gif g)) >>
  ret (gif_path, g).

(** Lines 186-196: display and download. *)
Definition display_and_download (cfg : Config) (gif_path : string) (g : gif)
    : M unit :=
  emit (StSuccess "🎉 GIF Generated Successfully!") >>
  emit (StImage gif_path
          ("Brain activity | Hemi: " +:+ hemi_selection cfg +:+ " | View: "
           +:+ String.concat ", " (view_selection cfg))) >>
  call (OpenRead gif_path) (open_rb libs gif_path) >>
  emit (StDownloadButton "⬇️ Download GIF" g
          ("brain_animation_" +:+ hemi_selection cfg +:+ ".gif")
          "image/gif").

Definition FLAG : string := "PYVISTA_TRANSPARENT_PLOTTER".

(** Lines 122-196: the [with] block. *)
Definition with_block (cfg : Config) (uploaded_file : UploadedFile) : M unit :=
  with_TemporaryDirectory (λ temp_dir,
    let* pg := make_gif cfg uploaded_file temp_dir in
    display_and_download cfg pg.1 pg.2).

(** Lines 198-199: the [except Exception as e] clause. *)
Definition on_error (e : exn) : M unit :=
  emit (StError ("An error occurred during GIF generation: " +:+ str e)).

(** Lines 201-203: the [finally] clause. *)
Definition cleanup : M unit :=
  let* present := environ_contains FLAG in
  if present then environ_del FLAG else ret tt.

(** Lines 118-203: the branch taken when the button was pressed and a file
    was uploaded. *)
Definition render_job (cfg : Config) (uploaded_file : UploadedFile) : M unit :=
  (if transparent_bg cfg then environ_set FLAG "True" else ret tt) >>
  try_finally (try_except (with_block cfg uploaded_file) on_error) cleanup.

(** Lines 116-206. *)
Definition main_panel (cfg : Config) (generate_button : bool)
    (uploaded_file : option UploadedFile) : M unit :=
  match generate_button, uploaded_file with
  | true, Some f => render_job cfg f
  | true, None => emit (StError "Please upload a file first.")
  | false, _ => ret tt
  end.

(** ** What is observed of a run *)

(** The still images written, in the order of writing. *)
Definition stills (l : list event) : list Image :=
  omap (λ ev, match ev with Wrote _ (Png img) => Some img | _ => None end) l.

(** The time points shown by the figure, in the order of [set_time]. *)
Definition shown (l : list event) : list float :=
  omap (λ ev, match ev with SetTime t => Some t | _ => None end) l.

(** The still images written, each with the time point that the figure
    showed when it was written: the argument of the last [set_time] before
    it, [last] when there was none. *)
Fixpoint photographed_from (last : option float) (l : list event)
    : list (option float * Image) :=
  match l with
  | [] => []
  | SetTime t :: l' => photographed_from (Some t) l'
  | Wrote _ (Png img) :: l' => (last, img) :: photographed_from last l'
  | _ :: l' => photographed_from last l'
  end.

(** At the start of a run no time point has been shown. *)
Definition photographed (l : list event) : list (option float * Image) :=
  photographed_from None l.

(** The calls of the GIF encoder: frames, duration, loop count. *)
Definition encoded (l : list event) : list (list Image * float * Z) :=
  omap (λ ev, match ev with
              | Mimsave _ images d lp _ => Some (images, d, lp)
              | _ => None
              end) l.

(** The keyword arguments of the calls of [stc.plot]. *)
Definition renders (l : list event) : list kwargs :=
  omap (λ ev, match ev with StcPlot kw => Some kw | _ => None end) l.

(** The download buttons: file name and data. *)
Definition downloads (l : list event) : list (string * gif) :=
  omap (λ ev, match ev with
              | StDownloadButton _ g file_name _ => Some (file_name, g)
              | _ => None
              end) l.

(** The error messages shown. *)
Definition errors (l : list event) : list string :=
  omap (λ ev, match ev with StError body => Some body | _ => None end) l.

(** The success message, the display of the GIF and the download button. *)
Definition is_offer (ev : event) : bool :=
  match ev with
  | StSuccess _ | StImage _ _ | StDownloadButton _ _ _ _ => true
  | _ => false
  end.

(** A render job is successful when it ends by offering the download. *)
Definition successful (l : list event) : Prop := downloads l ≠ [].

(** Two configurations that differ at most in the background colour. *)
Definition same_except_background (cfg1 cfg2 : Config) : Prop :=
  transparent_bg cfg1 = transparent_bg cfg2 ∧
  colormap_selection cfg1 = colormap_selection cfg2 ∧
  show_colorbar cfg1 = show_colorbar cfg2 ∧
  cortex_selection cfg1 = cortex_selection cfg2 ∧
  hemi_selection cfg1 = hemi_selection cfg2 ∧
  view_selection cfg1 = view_selection cfg2 ∧
  smoothing_steps cfg1 = smoothing_steps cfg2 ∧
  frame_step cfg1 = frame_step cfg2 ∧
  gif_duration cfg1 = gif_duration cfg2.

(** [kw] holds exactly one of the keys ['transparent'] and ['background'],
    the one that the transparency toggle selects. *)
Definition transparent_xor_background (cfg : Config) (kw : kwargs) : Prop :=
  if transparent_bg cfg
  then kw !! "transparent" = Some (VBool true) ∧ kw !! "background" = None
  else kw !! "background" = Some (VStr (background_color cfg))
       ∧ kw !! "transparent" = None.

(** Every event of every run of [m] satisfies [P]. *)
Definition emits {A} (P : event → Prop) (m : M A) : Prop :=
  ∀ env, Forall P (log (m env)).

(** [m] neither reads nor writes [os.environ]. *)
Definition pure_env {A} (m : M A) : Prop :=
  ∀ env env0, m env = Outcome env (log (m env0)) (res (m env0)).

(** What the [except Exception] clause of the render job does with [e]:
    the events and the result of the [try] statement. *)
Definition reported (e : exn) : list event * result unit :=
  match e with
  | Exception msg =>
      ([StError ("An error occurred during GIF generation: " +:+ msg)], Ok tt)
  | BaseException _ => ([], Raise e)
  end.

(** Lines 122-183 raise [e]: the temporary directory cannot be made, or
    load, render, screenshots or GIF assembly fail. *)
Definition generation_raises (cfg : Config) (uploaded_file : UploadedFile)
    (e : exn) : Prop :=
  mkdtemp libs = Raise e ∨
  ∃ temp_dir env,
    mkdtemp libs = Ok temp_dir ∧
    res (make_gif cfg uploaded_file temp_dir env) = Raise e.

(** The job gets as far as the render call of line 155: the temporary
    directory is made, the upload is saved and decoded, the backend and
    the fsaverage files are there, and the stride is not zero. *)
Definition reaches_render (cfg : Config) (uploaded_file : UploadedFile)
    : Prop :=
  ∃ temp_dir fs_dir stc,
    mkdtemp libs = Ok temp_dir ∧
    open_wb libs (temp_dir </> name uploaded_file) = Ok tt ∧
    set_3d_backend libs "pyvista" = Ok tt ∧
    fetch_fsaverage libs = Ok fs_dir ∧
    read_source_estimate libs (temp_dir </> name uploaded_file)
                         (getbuffer uploaded_file) = Ok stc ∧
    1 ≤ frame_step cfg.

(** The temporary directories removed. *)
Definition removed (l : list event) : list string :=
  omap (λ ev, match ev with RmTree dir => Some dir | _ => None end) l.

(** The values given to the progress bar, as numerator and denominator. *)
Definition progress (l : list event) : list (nat * nat) :=
  omap (λ ev, match ev with
              | StProgressUpdate num den => Some (num, den)
              | _ => None
              end) l.

(** The bodies of [st.info]. *)
Definition infos (l : list event) : list string :=
  omap (λ ev, match ev with StInfo body => Some body | _ => None end) l.

(** The success message, the display of the GIF and the download button,
    as they follow each other. *)
Definition offers (l : list event) : list event :=
  filter (λ ev, Is_true (is_offer ev)) l.

(** No call into the libraries raises. *)
Definition all_succeed : Prop :=
  (∃ temp_dir, mkdtemp libs = Ok temp_dir) ∧
  (∀ path, open_wb libs path = Ok tt) ∧
  (∀ path, open_rb libs path = Ok tt) ∧
  (∀ path, mkdir libs path = Ok tt) ∧
  (∀ backend, set_3d_backend libs backend = Ok tt) ∧
  (∃ fs_dir, fetch_fsaverage libs = Ok fs_dir) ∧
  (∀ path data, ∃ stc, read_source_estimate libs path data = Ok stc) ∧
  (∀ stc kw, ∃ brain, plot libs stc kw = Ok brain) ∧
  (∀ brain t, ∃ brain', set_time libs brain t = Ok brain') ∧
  (∀ brain path, ∃ img, save_image libs brain path = Ok img) ∧
  (∀ brain, close libs brain = Ok tt) ∧
  (∀ path, imread libs path = Ok tt) ∧
  (∀ path images d lp disp, mimsave libs path images d lp disp = Ok tt).

(** The step of the render job that an event belongs to, numbered in the
    order of the source: temporary directory (line 122), saving the upload
    (126-127), backend (131), fsaverage (132), decoding (133), render (155),
    announcement and frames directory (157-160), frame loop (162-166),
    closing the figure (168), reading the frames back (173), encoding
    (177-183), success message (186), display (188), opening the GIF (190),
    download button (191-196), leaving the [with] block, error message
    (199).  The two spinners are not numbered. *)
Definition stage (ev : event) : option nat :=
  match ev with
  | Mkdtemp => Some 0
  | OpenWrite _ | Wrote _ (Bytes _) => Some 1
  | SetBackend _ => Some 2
  | FetchFsaverage => Some 3
  | ReadSourceEstimate _ => Some 4
  | StcPlot _ => Some 5
  | StInfo _ | StProgress _ | Mkdir _ => Some 6
  | SetTime _ | SaveImage _ | Wrote _ (Png _) | StProgressUpdate _ _ => Some 7
  | BrainClose => Some 8
  | Imread _ => Some 9
  | Mimsave _ _ _ _ _ | Wrote _ (Gif _) => Some 10
  | StSuccess _ => Some 11
  | StImage _ _ => Some 12
  | OpenRead _ => Some 13
  | StDownloadButton _ _ _ _ => Some 14
  | RmTree _ => Some 15
  | StError _ => Some 16
  | StSpinner _ => None
  end.

(** The steps of a log. *)
Definition stages (l : list event) : list nat := omap stage l.

(** Every run of [m] goes through steps between [lo] and [hi], never back. *)
Definition staged {A} (lo hi : nat) (m : M A) : Prop :=
  ∀ env, StronglySorted (≤) (stages (log (m env)))
         ∧ Forall (λ s, lo ≤ s ≤ hi) (stages (log (m env))).

End App.

Arguments Outcome {float Image A} _ _ _.
Arguments final_env {float Image A} _.
Arguments log {float Image A} _.
Arguments res {float Image A} _.

(** The paths of the [n] frames from index [i] on. *)
Definition frame_paths (d : string) (i n : nat) : list string :=
  (λ j, d </> frame_name j) <$> seq i n.

(** ** A simulated installation

    Every library call answers, except possibly the decoding of the
    upload.  A source estimate of [n] bytes has [n] time points, one per
    millisecond, and a screenshot is identified by the time point that the
    figure shows. *)
Module Demo.

Definition libs_reading (read : string → bytes → result (list Q))
    : @Libs Q (list Q) Q Q := {|
  mkdtemp := Ok "/tmp/tmpk3x9";
  open_wb := λ _, Ok tt;
  open_rb := λ _, Ok tt;
  mkdir := λ _, Ok tt;
  parent := λ _, "/home/user/mne_data/MNE-fsaverage-data";
  set_3d_backend := λ _, Ok tt;
  fetch_fsaverage := Ok "/home/user/mne_data/MNE-fsaverage-data/fsaverage";
  read_source_estimate := read;
  times := λ stc, stc;
  plot := λ _ _, Ok 0%Q;
  set_time := λ _ t, Ok t;
  save_image := λ brain _, Ok brain;
  close := λ _, Ok tt;
  imread := λ _, Ok tt;
  mimsave := λ _ _ _ _ _, Ok tt;
  glob_magic := λ _ _, []
|}.

Definition libs : @Libs Q (list Q) Q Q :=
  libs_reading (λ _ b,
    Ok ((λ i, Qmake (Z.of_nat i) 1000) <$> seq 0 (length b))).

Definition cfg (step : nat) (transparent : bool) (background hemi : string)
    : @Config Q := {|
  transparent_bg := transparent;
  colormap_selection := "hot";
  background_color := background;
  show_colorbar := false;
  cortex_selection := "low_contrast";
  hemi_selection := hemi;
  view_selection := ["lateral"];
  smoothing_steps := 5;
  frame_step := step;
  gif_duration := (1 # 10)%Q
|}.

Definition upload (n : nat) : UploadedFile :=
  {| name := "sample-lh.stc"; getbuffer := replicate n Byte.x00 |}.

End Demo.

(** ** Installations with a fault

    As the simulated installation, but [save_image] fails from the frame
    of index [broken_frame] on, and the finished GIF cannot be opened
    again when [gif_locked] is set. *)
Module Faulty.

Definition libs (broken_frame : nat) (gif_locked : bool)
    : @Libs Q (list Q) Q Q := {|
  mkdtemp := Ok "/tmp/tmpk3x9";
  open_wb := λ _, Ok tt;
  open_rb := λ _,
    if gif_locked then Raise (Exception "Permission denied") else Ok tt;
  mkdir := λ _, Ok tt;
  parent := λ _, "/home/user/mne_data/MNE-fsaverage-data";
  set_3d_backend := λ _, Ok tt;
  fetch_fsaverage := Ok "/home/user/mne_data/MNE-fsaverage-data/fsaverage";
  read_source_estimate := λ _ b,
    Ok ((λ i, Qmake (Z.of_nat i) 1000) <$> seq 0 (length b));
  times := λ stc, stc;
  plot := λ _ _, Ok 0%Q;
  set_time := λ _ t, Ok t;
  save_image := λ brain path,
    if bool_decide (path ∈ frame_paths "/tmp/tmpk3x9/frames" 0 broken_frame)
    then Ok brain
    else Raise (Exception "Renderer lost");
  close := λ _, Ok tt;
  imread := λ _, Ok tt;
  mimsave := λ _ _ _ _ _, Ok tt;
  glob_magic := λ _ _, []
|}.

End Faulty.

(** The number written by a string of digits. *)
Definition digits_value (s : string) : nat :=
  match NilEmpty.uint_of_string s with
  | Some d => Nat.of_uint d
  | None => 0
  end.

(** ** Strings *)

Lemma append_cons (x : ascii) (a b : string) :
  String x a +:+ b = String x (a +:+ b).
Proof. done. Qed.

Lemma append_assoc (a b c : string) : (a +:+ b) +:+ c = a +:+ (b +:+ c).
Proof.
  induction a as [|x a IH]; [done|].
  by rewrite !append_cons, IH.
Qed.

Lemma length_append (a b : string) :
  String.length (a +:+ b) = String.length a + String.length b.
Proof.
  induction a as [|x a IH]; [done|].
  rewrite append_cons. simpl. by rewrite IH.
Qed.

Lemma strip_prefix_app (p s : string) : strip_prefix p (p +:+ s) = Some s.
Proof.
  induction p as [|a p IH]; [done|].
  rewrite append_cons. simpl. by rewrite Ascii.eqb_refl.
Qed.

Lemma ends_with_app (suf a : string) : ends_with suf (a +:+ suf) = true.
Proof.
  induction a as [|x a IH].
  - change ("" +:+ suf) with suf.
    destruct suf; simpl; by rewrite ?String.eqb_refl, ?Ascii.eqb_refl.
  - rewrite append_cons. simpl. rewrite IH. by case_match.
Qed.

Lemma fnmatch_frame_name i : fnmatch_frame (frame_name i) = true.
Proof.
  unfold fnmatch_frame, frame_name.
  rewrite strip_prefix_app. apply ends_with_app.
Qed.

Lemma has_magic_app (a b : string) :
  has_magic (a +:+ b) = (has_magic a || has_magic b)%bool.
Proof.
  induction a as [|c a IH]; [done|].
  rewrite append_cons. simpl. rewrite IH. by rewrite !orb_assoc.
Qed.

(** A name without wildcard adds none to a path. *)
Lemma has_magic_frames (d : string) :
  has_magic (d </> "frames") = has_magic d.
Proof.
  unfold joinpath. rewrite !has_magic_app. simpl. by rewrite orb_false_r.
Qed.

Lemma glob_match_frame d i : glob_match d (d </> frame_name i) = true.
Proof.
  unfold glob_match, joinpath.
  rewrite <- append_assoc, strip_prefix_app. apply fnmatch_frame_name.
Qed.

Lemma digits_value_str_of_nat n : digits_value (str_of_nat n) = n.
Proof.
  unfold digits_value, str_of_nat, NilZero.string_of_uint.
  pose proof (Unsigned.of_to n) as Hn.
  destruct (Nat.to_uint n) eqn:E; try (rewrite <- E, NilEmpty.usu, E; exact Hn).
  exact Hn.
Qed.

Lemma digits_value_zeros k s : digits_value (zeros k +:+ s) = digits_value s.
Proof.
  induction k as [|k IH]; [done|].
  simpl zeros. rewrite append_cons, <- IH.
  unfold digits_value. simpl.
  by destruct (NilEmpty.uint_of_string _).
Qed.

Lemma digits_value_format_03d i : digits_value (format_03d i) = i.
Proof. unfold format_03d. by rewrite digits_value_zeros, digits_value_str_of_nat. Qed.

Lemma append_inj_r (a b c : string) : a +:+ c = b +:+ c → a = b.
Proof.
  intros H.
  assert (String.length a = String.length b) as Hlen.
  { apply (f_equal String.length) in H. revert H.
    rewrite !length_append. lia. }
  revert b H Hlen.
  induction a as [|x a IH]; intros [|y b] H Hlen; try done.
  rewrite !append_cons in H. simpl in Hlen.
  injection H as -> H. f_equal. apply IH; [done|lia].
Qed.

Global Instance frame_name_inj : Inj (=) (=) frame_name.
Proof.
  intros i j H. unfold frame_name in H.
  apply (inj _) in H. apply append_inj_r in H.
  by rewrite <- (digits_value_format_03d i), H, digits_value_format_03d.
Qed.

Global Instance joinpath_inj d : Inj (=) (=) (joinpath d).
Proof. intros a b H. unfold joinpath in H. by do 2 apply (inj _) in H. Qed.

(** Lexicographic order and common prefixes. *)
Lemma compare_app (p a b : string) :
  String.compare (p +:+ a) (p +:+ b) = String.compare a b.
Proof.
  induction p as [|x p IH]; [done|].
  rewrite !append_cons. simpl.
  assert (Ascii.compare x x = Eq) as ->; [|done].
  unfold Ascii.compare. apply N.compare_refl.
Qed.

Lemma String_le_app (p a b : string) :
  String.le a b → String.le (p +:+ a) (p +:+ b).
Proof. unfold String.le, String.leb. by rewrite compare_app. Qed.

Lemma String_le_joinpath d a b : String.le a b → String.le (d </> a) (d </> b).
Proof. intros H. unfold joinpath. by do 2 apply String_le_app. Qed.

(** Up to a thousand frames, the names of the frames ascend. *)
Lemma frame_names_sorted_1000 :
  StronglySorted String.le (frame_name <$> seq 0 1000).
Proof.
  apply Sorted_StronglySorted; [apply _|].
  apply (bool_decide_unpack (Sorted String.le (frame_name <$> seq 0 1000))).
  vm_compute. exact I.
Qed.

Lemma frame_names_sorted n :
  n ≤ 1000 → StronglySorted String.le (frame_name <$> seq 0 n).
Proof.
  intros Hn. pose proof frame_names_sorted_1000 as H.
  replace 1000 with (n + (1000 - n)) in H by lia.
  rewrite seq_app, fmap_app in H.
  by apply StronglySorted_app_1_l in H.
Qed.

Lemma frame_paths_sorted d n :
  n ≤ 1000 → Sorted String.le ((λ i, d </> frame_name i) <$> seq 0 n).
Proof.
  intros Hn. apply StronglySorted_Sorted.
  rewrite (list_fmap_compose frame_name (joinpath d)).
  eapply StronglySorted_fmap, frame_names_sorted; [|done].
  intros a b. apply String_le_joinpath.
Qed.

(** ** Slices *)

Lemma length_every_nth {A} (step : nat) (l : list A) : ∀ skip,
  skip < step →
  length (every_nth skip step l) = (length l + step - 1 - skip) / step.
Proof.
  induction l as [|x l IH]; intros skip Hs; simpl.
  - symmetry. apply Nat.div_small. lia.
  - destruct skip as [|k].
    + simpl. rewrite IH by lia.
      replace (length l + step - 0 - 0) with (length l + 1 * step) by lia.
      rewrite Nat.div_add by lia.
      replace (length l + step - 1 - (step - 1)) with (length l) by lia. lia.
    + rewrite IH by lia. f_equal. lia.
Qed.

Lemma length_slice (step : nat) {A} (l : list A) :
  1 ≤ step → length (every_nth 0 step l) = ceil_div (length l) step.
Proof.
  intros H. rewrite length_every_nth by lia. unfold ceil_div. f_equal. lia.
Qed.

Lemma ceil_div_spec a b :
  1 ≤ b → a ≤ ceil_div a b * b ∧ ceil_div a b * b < a + b.
Proof.
  intros Hb. unfold ceil_div.
  pose proof (Nat.div_mod (a + b - 1) b ltac:(lia)).
  pose proof (Nat.mod_upper_bound (a + b - 1) b ltac:(lia)).
  nia.
Qed.

(** ** The log of a run *)

Section Emits.
Context {float Stc Brain Image : Type}.
Variable libs : @Libs float Stc Brain Image.
Variable P : @event float Image → Prop.

Lemma emits_ret {A} (a : A) : emits P (ret a).
Proof. intros env. constructor. Qed.

Lemma emits_raise {A} e : emits P (raise (A:=A) e).
Proof. intros env. constructor. Qed.

Lemma emits_lift {A} (r : result A) : emits P (lift r).
Proof. intros env. constructor. Qed.

Lemma emits_emit ev : P ev → emits P (emit ev).
Proof. intros H env. by repeat constructor. Qed.

Lemma emits_bind {A B} (m : M A) (f : A → M B) :
  emits P m → (∀ a, emits P (f a)) → emits P (bind m f).
Proof.
  intros Hm Hf env. unfold bind.
  specialize (Hm env). destruct (m env) as [env1 l1 [a|e]]; [|done].
  specialize (Hf a env1). destruct (f a env1) as [env2 l2 r].
  simpl in *. by apply Forall_app.
Qed.

Lemma emits_call {A} ev (r : result A) : P ev → emits P (call ev r).
Proof. intros H. apply emits_bind; [by apply emits_emit|]. intros _. apply emits_lift. Qed.

Lemma emits_try_except {A} (m : M A) h :
  emits P m → (∀ e, emits P (h e)) → emits P (try_except m h).
Proof.
  intros Hm Hh env. unfold try_except.
  specialize (Hm env). destruct (m env) as [env1 l1 [a|[msg|msg]]]; try done.
  specialize (Hh (Exception msg) env1). destruct (h _ env1) as [env2 l2 r].
  simpl in *. by apply Forall_app.
Qed.

Lemma emits_try_finally {A} (m : M A) f :
  emits P m → emits P f → emits P (try_finally m f).
Proof.
  intros Hm Hf env. unfold try_finally.
  specialize (Hm env). destruct (m env) as [env1 l1 r].
  specialize (Hf env1). destruct (f env1) as [env2 l2 [[]|e]];
    simpl in *; by apply Forall_app.
Qed.

Lemma emits_environ_set k v : emits P (environ_set k v).
Proof. intros env. constructor. Qed.

Lemma emits_environ_contains k : emits P (environ_contains k).
Proof. intros env. constructor. Qed.

Lemma emits_environ_del k : emits P (environ_del k).
Proof. intros env. constructor. Qed.

Lemma emits_slice_step {A} (l : list A) step : emits P (slice_step l step).
Proof. destruct step; [apply emits_raise|apply emits_ret]. Qed.

Lemma emits_frame_loop total d ts : ∀ i brain files,
  (∀ t, P (SetTime t)) → (∀ p, P (SaveImage p)) →
  (∀ p img, P (Wrote p (Png img))) → (∀ a b, P (StProgressUpdate a b)) →
  emits P (frame_loop libs total d i ts brain files).
Proof.
  induction ts as [|t ts IH]; intros i brain files H1 H2 H3 H4; simpl.
  - apply emits_ret.
  - apply emits_bind; [by apply emits_call|intros brain'].
    apply emits_bind; [by apply emits_call|intros img].
    apply emits_bind; [by apply emits_emit|intros _].
    apply emits_bind; [by apply emits_emit|intros _].
    by apply IH.
Qed.

Lemma emits_imread_all files fs :
  (∀ p, P (Imread p)) → emits P (imread_all libs files fs).
Proof.
  intros H. induction fs as [|f fs IH]; simpl.
  - apply emits_ret.
  - apply emits_bind; [|intros img; apply emits_bind; [done|intros; apply emits_ret]].
    apply emits_bind; [by apply emits_call|intros _].
    destruct (files !! f); [apply emits_ret|apply emits_raise].
Qed.

End Emits.

Ltac emits_step :=
  first
    [ apply emits_ret | apply emits_raise | apply emits_lift
    | apply emits_environ_set | apply emits_environ_contains
    | apply emits_environ_del | apply emits_slice_step
    | apply emits_emit | apply emits_call
    | apply emits_frame_loop | apply emits_imread_all
    | apply emits_try_except | apply emits_try_finally
    | apply emits_bind ].

Ltac emits := repeat (intros; first [emits_step | case_match]); try done.

(** ** Code that does not touch the environment *)

Section Pure.
Context {float Stc Brain Image : Type}.
Variable libs : @Libs float Stc Brain Image.
Implicit Types (ev : @event float Image).

Lemma pure_ret {A} (a : A) : pure_env (Image:=Image) (float:=float) (ret a).
Proof. done. Qed.

Lemma pure_raise {A} e : pure_env (Image:=Image) (float:=float) (raise (A:=A) e).
Proof. done. Qed.

Lemma pure_lift {A} (r : result A) : pure_env (Image:=Image) (float:=float) (lift r).
Proof. done. Qed.

Lemma pure_emit ev : pure_env (emit ev).
Proof. done. Qed.

Lemma pure_bind {A B} (m : @M float Image A) (f : A → M B) :
  pure_env m → (∀ a, pure_env (f a)) → pure_env (bind m f).
Proof.
  intros Hm Hf env env0. unfold bind.
  pose proof (Hm env env0) as H1. pose proof (Hm env0 env0) as H2.
  destruct (m env0) as [e1 l1 r1]. simpl in *. rewrite H1. simplify_eq.
  destruct r1 as [a|e]; [|done].
  pose proof (Hf a env env0) as H3. pose proof (Hf a env0 env0) as H4.
  destruct (f a env0) as [e2 l2 r2]. simpl in *. rewrite H3. by simplify_eq.
Qed.

Lemma pure_call {A} ev (r : result A) : pure_env (call ev r).
Proof. done. Qed.

Lemma pure_try_except {A} (m : @M float Image A) h :
  pure_env m → (∀ e, pure_env (h e)) → pure_env (try_except m h).
Proof.
  intros Hm Hh env env0. unfold try_except.
  pose proof (Hm env env0) as H1. pose proof (Hm env0 env0) as H2.
  destruct (m env0) as [e1 l1 r1]. simpl in *. rewrite H1. simplify_eq.
  destruct r1 as [a|[msg|msg]]; try done.
  pose proof (Hh (Exception msg) env env0) as H3.
  pose proof (Hh (Exception msg) env0 env0) as H4.
  destruct (h _ env0) as [e2 l2 r2]. simpl in *. rewrite H3. by simplify_eq.
Qed.

Lemma pure_try_finally {A} (m : @M float Image A) f :
  pure_env m → pure_env f → pure_env (try_finally m f).
Proof.
  intros Hm Hf env env0. unfold try_finally.
  pose proof (Hm env env0) as H1. pose proof (Hm env0 env0) as H2.
  destruct (m env0) as [e1 l1 r1]. simpl in *. rewrite H1. simplify_eq.
  pose proof (Hf env env0) as H3. pose proof (Hf env0 env0) as H4.
  destruct (f env0) as [e2 l2 r2]. simpl in *. rewrite H3. simplify_eq.
  by destruct r2 as [[]|].
Qed.

Lemma pure_slice_step {A} (l : list A) step :
  pure_env (Image:=Image) (float:=float) (slice_step l step).
Proof. by destruct step. Qed.

Lemma pure_frame_loop total d ts : ∀ i brain files,
  pure_env (frame_loop libs total d i ts brain files).
Proof.
  induction ts as [|t ts IH]; intros i brain files; simpl; [done|].
  apply pure_bind; [done|intros brain'].
  apply pure_bind; [done|intros img].
  apply pure_bind; [done|intros _].
  apply pure_bind; [done|intros _].
  apply IH.
Qed.

Lemma pure_imread_all files fs : pure_env (imread_all libs files fs).
Proof.
  induction fs as [|f fs IH]; simpl; [done|].
  apply pure_bind; [|intros img; apply pure_bind; [done|by intros]].
  apply pure_bind; [done|intros _]. by destruct (files !! f).
Qed.

Lemma pure_make_gif cfg up d : pure_env (make_gif libs cfg up d).
Proof.
  unfold make_gif, get_fsaverage_path.
  repeat (intros; first
    [ apply pure_frame_loop | apply pure_imread_all | apply pure_slice_step
    | apply pure_call | apply pure_emit | apply pure_ret | apply pure_bind ]).
Qed.

End Pure.

(** ** Runs that return *)

Lemma omap_cons_match {A B} (f : A → option B) (x : A) (l : list A) :
  omap f (x :: l) = match f x with Some y => y :: omap f l | None => omap f l end.
Proof. done. Qed.

Lemma omap_nil_eq {A B} (f : A → option B) : omap f [] = [].
Proof. done. Qed.

(** Computes [stills], [encoded], ... on a log given by its events. *)
Ltac obs :=
  unfold stills, shown, encoded, renders, downloads, errors in *;
  repeat first [rewrite omap_app | rewrite omap_cons_match | rewrite omap_nil_eq];
  cbv beta iota; cbn [app]; rewrite ?app_nil_r.

Section Runs.
Context {float Stc Brain Image : Type}.
Variable libs : @Libs float Stc Brain Image.
Implicit Types (cfg : @Config float) (ev : @event float Image).
Implicit Types (files : gmap string Image) (env : environ).
Implicit Types (imgs images : list Image).

Lemma frame_paths_NoDup d i n : NoDup (frame_paths d i n).
Proof.
  unfold frame_paths. apply NoDup_fmap_2; [|apply NoDup_seq].
  intros a b H. by do 2 apply (inj _) in H.
Qed.

Lemma frame_loop_Ok total d ts : ∀ i brain files env env' lg brain' files',
  frame_loop libs total d i ts brain files env
    = Outcome env' lg (Ok (brain', files')) →
  env' = env ∧
  ∃ imgs, length imgs = length ts ∧ stills lg = imgs ∧ shown lg = ts ∧
    encoded lg = [] ∧
    files' = list_to_map (zip (frame_paths d i (length ts)) imgs) ∪ files.
Proof.
  induction ts as [|t ts IH]; intros i brain files env env' lg brain' files' H.
  - simpl in H. unfold ret in H. simplify_eq.
    split; [done|]. exists []. split_and!; try done.
    simpl. by rewrite (left_id_L ∅ (∪)).
  - simpl in H. unfold bind, call, bind, emit, lift in H.
    destruct (set_time libs brain t) as [brain1|]; [|done].
    destruct (save_image libs brain1 _) as [img|]; [|done].
    simpl in H.
    destruct (frame_loop _ _ _ _ _ _ _ _) as [env2 lg2 [[b f]|]] eqn:Hloop;
      [|done].
    simplify_eq.
    apply IH in Hloop as (-> & imgs & Hlen & Hst & Hsh & Hen & ->).
    split; [done|]. exists (img :: imgs). split_and!.
    + simpl. by rewrite Hlen.
    + simpl. by rewrite Hst.
    + simpl. by rewrite Hsh.
    + done.
    + simpl. rewrite <- insert_union_l, insert_union_r; [done|].
      apply not_elem_of_list_to_map_1.
      rewrite fst_zip by (unfold frame_paths; rewrite length_fmap, length_seq; lia).
      unfold frame_paths. intros (j & Hj & Hin)%list_elem_of_fmap.
      do 2 apply (inj _) in Hj. subst j.
      apply elem_of_seq in Hin. lia.
Qed.

Lemma imread_all_Ok files fs : ∀ env env' lg images,
  imread_all libs files fs env = Outcome env' lg (Ok images) →
  env' = env ∧ stills lg = [] ∧ shown lg = [] ∧ encoded lg = [] ∧
  Forall2 (λ p img, files !! p = Some img) fs images.
Proof.
  induction fs as [|f fs IH]; intros env env' lg images H.
  - simpl in H. unfold ret in H. by simplify_eq.
  - simpl in H. unfold bind, imread_file, call, bind, emit, lift in H.
    destruct (imread libs f) as [[]|]; [|done].
    destruct (files !! f) as [img|] eqn:Hf; simpl in H; [|done].
    destruct (imread_all _ _ _ _) as [env2 lg2 [imgs|]] eqn:Hrest; [|done].
    simpl in H. simplify_eq.
    apply IH in Hrest as (-> & Hst & Hsh & Hen & HF).
    split_and!; try done; [by obs..|by constructor].
Qed.

Lemma glob_frame_paths d n imgs :
  has_magic d = false →
  length imgs = n →
  glob_frames libs d (list_to_map (zip (frame_paths d 0 n) imgs))
  ≡ₚ frame_paths d 0 n.
Proof.
  intros Hd Hlen. unfold glob_frames. rewrite Hd.
  rewrite map_to_list_to_map; last first.
  { rewrite fst_zip; [apply frame_paths_NoDup|].
    unfold frame_paths. rewrite length_fmap, length_seq. lia. }
  rewrite fst_zip by (unfold frame_paths; rewrite length_fmap, length_seq; lia).
  unfold frame_paths. generalize (seq 0 n). intros l.
  induction l as [|j l IH]; [done|].
  rewrite fmap_cons, filter_cons_True; [by rewrite IH|].
  by rewrite glob_match_frame.
Qed.

Lemma lookup_frame_paths d n imgs :
  length imgs = n →
  Forall2 (λ p img, (list_to_map (zip (frame_paths d 0 n) imgs) : gmap string Image) !! p = Some img)
          (frame_paths d 0 n) imgs.
Proof.
  intros Hlen.
  apply Forall2_same_length_lookup. split.
  { unfold frame_paths. rewrite length_fmap, length_seq. lia. }
  intros k p img Hp Himg.
  apply elem_of_list_to_map_1.
  - rewrite fst_zip; [apply frame_paths_NoDup|].
    unfold frame_paths. rewrite length_fmap, length_seq. lia.
  - apply list_elem_of_lookup. exists k. by apply lookup_zip_with_Some; eauto.
Qed.

Lemma Forall2_lookup_omap files (ps : list string) imgs :
  Forall2 (λ p img, files !! p = Some img) ps imgs → omap (files !!.) ps = imgs.
Proof.
  induction 1 as [|p img ps imgs H _ IH]; simpl; [done|].
  rewrite H. simpl. by f_equal.
Qed.

Lemma make_gif_Ok cfg up d env env' lg p g :
  make_gif libs cfg up d env = Outcome env' lg (Ok (p, g)) →
  ∃ stc,
    read_source_estimate libs (d </> name up) (getbuffer up) = Ok stc ∧
    1 ≤ frame_step cfg ∧
    shown lg = every_nth 0 (frame_step cfg) (times libs stc) ∧
    length (stills lg) = length (shown lg) ∧
    encoded lg = [(frames g, gif_duration cfg, 0%Z)] ∧
    duration g = gif_duration cfg ∧ loop g = 0%Z ∧
    (has_magic d = false → frames g ≡ₚ stills lg) ∧
    (has_magic d = false → length (stills lg) ≤ 1000 →
     frames g = stills lg) ∧
    env' = env.
Proof.
  intros H.
  unfold make_gif, get_fsaverage_path, slice_step, call, bind, emit, lift,
    ret, raise in H.
  destruct (open_wb libs _) as [[]|]; [|done].
  destruct (set_3d_backend libs _) as [[]|]; [|done].
  destruct (fetch_fsaverage libs) as [fs_dir|]; [|done].
  destruct (read_source_estimate libs _ _) as [stc|] eqn:Hstc; [|done].
  destruct (frame_step cfg) as [|k] eqn:Hstep; [done|].
  destruct (plot libs stc _) as [brain|]; [|done].
  destruct (mkdir libs _) as [[]|]; [|done].
  destruct (frame_loop _ _ _ _ _ _ _ _) as [env2 lg2 [[b files]|]] eqn:Hloop;
    [|done].
  destruct (close libs _) as [[]|]; [|done].
  destruct (imread_all _ _ _ _) as [env3 lg3 [images|]] eqn:Hread; [|done].
  destruct (mimsave libs _ _ _ _ _) as [[]|]; [|done].
  simplify_eq.
  apply frame_loop_Ok in Hloop as (-> & imgs & Hlen & Hst & Hsh & Hen & ->).
  simpl in Hread. rewrite (right_id_L ∅ (∪)) in Hread.
  apply imread_all_Ok in Hread as (-> & Hst3 & Hsh3 & Hen3 & HF).
  set (n := length (every_nth 0 (S k) (times libs stc))) in *.
  assert (stills lg2 = imgs) as Himgs by done.
  pose proof (lookup_frame_paths (d </> "frames") n imgs Hlen) as Hlook.
  apply Forall2_lookup_omap in HF, Hlook.
  set (files := list_to_map (zip (frame_paths (d </> "frames") 0 n) imgs)) in *.
  assert (has_magic d = false →
          sorted (glob_frames libs (d </> "frames") files)
          ≡ₚ frame_paths (d </> "frames") 0 n) as Hperm.
  { intros Hd. unfold sorted. rewrite merge_sort_Permutation.
    apply glob_frame_paths; [by rewrite has_magic_frames|done]. }
  exists stc. simpl. split_and!; try done; try lia.
  - obs. by rewrite Hsh, Hsh3, app_nil_r.
  - obs. rewrite Hst3, Himgs, Hsh, Hsh3, !app_nil_r. lia.
  - obs. by rewrite Hen, Hen3.
  - obs. rewrite Hst3, Himgs, app_nil_r. intros Hd.
    specialize (Hperm Hd).
    apply (omap_Permutation (files !!.)) in Hperm.
    by rewrite HF, Hlook in Hperm.
  - obs. rewrite Hst3, Himgs, app_nil_r. intros Hd Hle.
    specialize (Hperm Hd).
    apply (Sorted_unique String.le) in Hperm.
    + by rewrite Hperm, Hlook in HF.
    + apply (Sorted_merge_sort String.le).
    + apply frame_paths_sorted. lia.
Qed.
Lemma photographed_from_quiet (lg : list (@event float Image)) : ∀ last,
  stills lg = [] → photographed_from last lg = [].
Proof.
  induction lg as [|ev lg IH]; intros last H; [done|].
  unfold stills in *. rewrite omap_cons_match in H.
  destruct ev; simpl; try (by apply IH).
  destruct c; simpl in *; try (by apply IH). done.
Qed.

Lemma photographed_from_app_quiet (lg1 lg2 : list (@event float Image)) :
  ∀ last,
    stills lg2 = [] →
    photographed_from last (lg1 ++ lg2) = photographed_from last lg1.
Proof.
  intros last H. revert last.
  induction lg1 as [|ev lg1 IH]; intros last.
  - by apply photographed_from_quiet.
  - destruct ev; simpl; try (by apply IH).
    destruct c; simpl; try (by apply IH). by rewrite IH.
Qed.

Lemma frame_loop_photographed total d ts : ∀ i brain files env env' lg bf last,
  frame_loop libs total d i ts brain files env = Outcome env' lg (Ok bf) →
  photographed_from last lg = zip (Some <$> ts) (stills lg).
Proof.
  induction ts as [|t ts IH]; intros i brain files env env' lg bf last H.
  - simpl in H. unfold ret in H. by simplify_eq.
  - simpl in H. unfold bind, call, bind, emit, lift in H.
    destruct (set_time libs brain t) as [brain1|]; [|done].
    destruct (save_image libs brain1 _) as [img|]; [|done].
    simpl in H.
    destruct (frame_loop _ _ _ _ _ _ _ _) as [env2 lg2 [[b f]|]] eqn:Hloop;
      [|done].
    simplify_eq. simpl. f_equal. by eapply IH.
Qed.

(** In a run of lines 123-183 that returns, every still image was written
    while the figure showed the time point of its turn. *)
Lemma make_gif_photographed cfg up d env env' lg pg :
  make_gif libs cfg up d env = Outcome env' lg (Ok pg) →
  photographed lg = zip (Some <$> shown lg) (stills lg).
Proof.
  intros H.
  unfold make_gif, get_fsaverage_path, slice_step, call, bind, emit, lift,
    ret, raise in H.
  destruct (open_wb libs _) as [[]|]; [|done].
  destruct (set_3d_backend libs _) as [[]|]; [|done].
  destruct (fetch_fsaverage libs) as [fs_dir|]; [|done].
  destruct (read_source_estimate libs _ _) as [stc|] eqn:Hstc; [|done].
  destruct (frame_step cfg) as [|k] eqn:Hstep; [done|].
  destruct (plot libs stc _) as [brain|]; [|done].
  destruct (mkdir libs _) as [[]|]; [|done].
  destruct (frame_loop _ _ _ _ _ _ _ _) as [env2 lg2 [[b files]|]] eqn:Hloop;
    [|done].
  destruct (close libs _) as [[]|]; [|done].
  destruct (imread_all _ _ _ _) as [env3 lg3 [images|]] eqn:Hread; [|done].
  destruct (mimsave libs _ _ _ _ _) as [[]|]; [|done].
  simplify_eq.
  pose proof (frame_loop_photographed _ _ _ _ _ _ _ _ _ _ None Hloop) as Hph.
  apply frame_loop_Ok in Hloop as (-> & imgs & Hlen & Hst & Hsh & Hen & ->).
  apply imread_all_Ok in Hread as (-> & Hst3 & Hsh3 & Hen3 & HF).
  unfold photographed. cbn [app photographed_from].
  rewrite photographed_from_app_quiet by (obs; by rewrite Hst3).
  obs. by rewrite Hst3, Hsh3, !app_nil_r, Hsh.
Qed.

(** The files that [glob] finds are in the directory. *)
Lemma glob_frames_present d files :
  Forall (λ p, is_Some (files !! p)) (sorted (glob_frames libs d files)).
Proof.
  unfold sorted. rewrite merge_sort_Permutation.
  unfold glob_frames. apply Forall_forall. intros p Hp.
  destruct (has_magic d).
  - by apply list_elem_of_filter in Hp as [Hp _].
  - apply list_elem_of_filter in Hp as [_ Hp].
    apply list_elem_of_fmap in Hp as ([p' img] & -> & Hin).
    apply elem_of_map_to_list in Hin. by exists img.
Qed.

(** The frames handed to the encoder are among the still images. *)
Lemma make_gif_frames_written cfg up d env env' lg p g :
  make_gif libs cfg up d env = Outcome env' lg (Ok (p, g)) →
  frames g ⊆ stills lg.
Proof.
  intros H.
  unfold make_gif, get_fsaverage_path, slice_step, call, bind, emit, lift,
    ret, raise in H.
  destruct (open_wb libs _) as [[]|]; [|done].
  destruct (set_3d_backend libs _) as [[]|]; [|done].
  destruct (fetch_fsaverage libs) as [fs_dir|]; [|done].
  destruct (read_source_estimate libs _ _) as [stc|] eqn:Hstc; [|done].
  destruct (frame_step cfg) as [|k] eqn:Hstep; [done|].
  destruct (plot libs stc _) as [brain|]; [|done].
  destruct (mkdir libs _) as [[]|]; [|done].
  destruct (frame_loop _ _ _ _ _ _ _ _) as [env2 lg2 [[b files]|]] eqn:Hloop;
    [|done].
  destruct (close libs _) as [[]|]; [|done].
  destruct (imread_all _ _ _ _) as [env3 lg3 [images|]] eqn:Hread; [|done].
  destruct (mimsave libs _ _ _ _ _) as [[]|]; [|done].
  simplify_eq.
  apply frame_loop_Ok in Hloop as (-> & imgs & Hlen & Hst & Hsh & Hen & ->).
  simpl in Hread. rewrite (right_id_L ∅ (∪)) in Hread.
  apply imread_all_Ok in Hread as (-> & Hst3 & Hsh3 & Hen3 & HF).
  simpl. obs. rewrite Hst3, app_nil_r.
  intros img Himg.
  apply list_elem_of_lookup in Himg as [j Hj].
  destruct (Forall2_lookup_r _ _ _ _ _ HF Hj) as (q & _ & Hq).
  apply elem_of_list_to_map_2, elem_of_zip_r in Hq. by rewrite Hst.
Qed.
End Runs.

(** ** The render job, case by case *)

Section Job.
Context {float Stc Brain Image : Type}.
Variable libs : @Libs float Stc Brain Image.
Implicit Types (cfg : @Config float) (up : UploadedFile) (env : environ).
Implicit Types (e : exn) (lg : list (@event float Image)).

Lemma make_gif_no_offer cfg up d :
  emits (λ ev, is_offer ev = false) (make_gif libs cfg up d).
Proof. unfold make_gif, get_fsaverage_path. emits. Qed.

Lemma no_offer_downloads lg :
  Forall (λ ev, is_offer ev = false) lg → downloads lg = [].
Proof.
  induction 1 as [|ev lg H _ IH]; [done|].
  unfold downloads in *. rewrite omap_cons_match, IH. by destruct ev.
Qed.

Lemma with_block_mkdtemp_raises cfg up env e :
  mkdtemp libs = Raise e →
  with_block libs cfg up env = Outcome env [Mkdtemp] (Raise e).
Proof.
  intros H. unfold with_block, with_TemporaryDirectory, call, bind, emit, lift.
  by rewrite H.
Qed.

Lemma with_block_make_gif_raises cfg up env d env0 e :
  mkdtemp libs = Ok d →
  res (make_gif libs cfg up d env0) = Raise e →
  with_block libs cfg up env
  = Outcome env (Mkdtemp :: log (make_gif libs cfg up d env0) ++ [RmTree d])
            (Raise e).
Proof.
  intros H He.
  unfold with_block, with_TemporaryDirectory, call, bind, emit, lift, try_finally.
  rewrite H, (pure_make_gif libs cfg up d env env0), He. simpl.
  done.
Qed.

Lemma with_block_make_gif_Ok cfg up env d env0 p g :
  mkdtemp libs = Ok d →
  res (make_gif libs cfg up d env0) = Ok (p, g) →
  with_block libs cfg up env
  = Outcome env
      (Mkdtemp :: log (make_gif libs cfg up d env0)
       ++ [StSuccess "🎉 GIF Generated Successfully!";
           StImage p ("Brain activity | Hemi: " +:+ hemi_selection cfg
                      +:+ " | View: "
                      +:+ String.concat ", " (view_selection cfg));
           OpenRead p]
       ++ match open_rb libs p with
          | Ok _ => [StDownloadButton "⬇️ Download GIF" g
                       ("brain_animation_" +:+ hemi_selection cfg +:+ ".gif")
                       "image/gif"; RmTree d]
          | Raise _ => [RmTree d]
          end)
      (match open_rb libs p with Ok _ => Ok tt | Raise e => Raise e end).
Proof.
  intros H Hg.
  unfold with_block, with_TemporaryDirectory, display_and_download,
    call, bind, emit, lift, try_finally.
  rewrite H, (pure_make_gif libs cfg up d env env0), Hg. simpl.
  destruct (open_rb libs p) as [[]|e]; simpl; f_equal;
    by rewrite <- ?app_assoc.
Qed.

Lemma cleanup_run env :
  cleanup (float:=float) (Image:=Image) env = Outcome (delete FLAG env) [] (Ok tt).
Proof.
  unfold cleanup, bind, environ_contains, environ_del, ret.
  case_bool_decide as H; simpl; [done|].
  rewrite delete_id; [done|]. by apply eq_None_not_Some.
Qed.

(** The environment in which the [try] statement starts. *)
Lemma render_job_run cfg up env :
  render_job libs cfg up env =
  match with_block libs cfg up
          (if transparent_bg cfg then <[FLAG := "True"]> env else env) with
  | Outcome env1 lg (Ok a) => Outcome (delete FLAG env1) lg (Ok a)
  | Outcome env1 lg (Raise e) =>
      Outcome (delete FLAG env1) (lg ++ (reported e).1)
              (reported (float:=float) (Image:=Image) e).2
  end.
Proof.
  unfold render_job, bind, try_finally, try_except, on_error, emit.
  destruct (transparent_bg cfg); simpl;
    destruct (with_block _ _ _ _) as [env1 lg [[]|[msg|msg]]];
    rewrite cleanup_run; simpl; by rewrite ?app_nil_r.
Qed.

Lemma pure_with_block cfg up : pure_env (with_block libs cfg up).
Proof.
  unfold with_block, with_TemporaryDirectory, display_and_download.
  apply pure_bind; [apply pure_call|intros d].
  apply pure_try_finally; [|apply pure_emit].
  apply pure_bind; [apply pure_make_gif|intros pg].
  repeat (apply pure_bind; [first [apply pure_emit|apply pure_call]|intros _]).
  apply pure_emit.
Qed.

Lemma render_job_final_env cfg up env :
  final_env (render_job libs cfg up env) = delete FLAG env.
Proof.
  rewrite render_job_run.
  set (env0 := if transparent_bg cfg then _ else _).
  rewrite (pure_with_block cfg up env0 env0).
  assert (delete FLAG env0 = delete FLAG env) as <-.
  { unfold env0. destruct (transparent_bg cfg); [|done]. apply delete_insert_eq. }
  by destruct (res _) as [|].
Qed.

End Job.

Section Success.
Context {float Stc Brain Image : Type}.
Variable libs : @Libs float Stc Brain Image.
Implicit Types (cfg : @Config float) (up : UploadedFile) (env : environ).
Implicit Types (e : exn) (lg : list (@event float Image)).

Lemma reported_downloads e :
  downloads (reported (float:=float) (Image:=Image) e).1 = [].
Proof. by destruct e. Qed.

(** A successful job went through every step. *)
Lemma successful_inv cfg up env :
  successful (log (render_job libs cfg up env)) →
  ∃ d lg p g,
    mkdtemp libs = Ok d ∧
    make_gif libs cfg up d env = Outcome env lg (Ok (p, g)) ∧
    log (render_job libs cfg up env)
    = Mkdtemp :: lg
      ++ [StSuccess "🎉 GIF Generated Successfully!";
          StImage p ("Brain activity | Hemi: " +:+ hemi_selection cfg
                     +:+ " | View: "
                     +:+ String.concat ", " (view_selection cfg));
          OpenRead p;
          StDownloadButton "⬇️ Download GIF" g
            ("brain_animation_" +:+ hemi_selection cfg +:+ ".gif")
            "image/gif";
          RmTree d].
Proof.
  unfold successful. rewrite render_job_run.
  set (env0 := if transparent_bg cfg then _ else _).
  destruct (mkdtemp libs) as [d|e] eqn:Hd.
  - pose proof (pure_make_gif libs cfg up d env env) as Hpure.
    pose proof (make_gif_no_offer libs cfg up d env) as Hno.
    apply no_offer_downloads in Hno.
    destruct (res (make_gif libs cfg up d env)) as [[p g]|e] eqn:Hg.
    + rewrite (with_block_make_gif_Ok libs cfg up env0 d env p g Hd Hg).
      destruct (open_rb libs p) as [[]|e]; simpl; intros Hs.
      * exists d, (log (make_gif libs cfg up d env)), p, g.
        split_and!; done.
      * destruct Hs. pose proof (reported_downloads e) as Hr.
        obs. by rewrite Hno, Hr.
    + rewrite (with_block_make_gif_raises libs cfg up env0 d env e Hd Hg).
      simpl. intros Hs. destruct Hs. pose proof (reported_downloads e) as Hr.
      obs. by rewrite Hno, Hr.
  - rewrite (with_block_mkdtemp_raises libs cfg up env0 e Hd). simpl.
    intros Hs. destruct Hs. pose proof (reported_downloads e) as Hr.
    obs. by rewrite Hr.
Qed.
End Success.

Section Outcome.
Context {float Stc Brain Image : Type}.
Variable libs : @Libs float Stc Brain Image.
Implicit Types (cfg : @Config float) (up : UploadedFile) (env : environ).
Implicit Types (e : exn) (lg : list (@event float Image)).

Lemma make_gif_quiet cfg up d :
  emits (λ ev, downloads [ev] = [] ∧ errors [ev] = [])
        (make_gif libs cfg up d).
Proof. unfold make_gif, get_fsaverage_path. emits. Qed.

Lemma quiet_log lg :
  Forall (λ ev, downloads [ev] = [] ∧ errors [ev] = []) lg →
  downloads lg = [] ∧ errors lg = [].
Proof.
  induction 1 as [|ev lg [H1 H2] _ [IH1 IH2]]; [done|].
  unfold downloads, errors in *. rewrite !omap_cons_match in *.
  rewrite IH1, IH2. by split; case_match.
Qed.

(** Everything known of a successful job. *)
Lemma successful_job cfg up env :
  let o := main_panel libs cfg true (Some up) env in
  successful (log o) →
  ∃ d stc g,
    mkdtemp libs = Ok d ∧
    read_source_estimate libs (d </> name up) (getbuffer up) = Ok stc ∧
    1 ≤ frame_step cfg ∧
    shown (log o) = every_nth 0 (frame_step cfg) (times libs stc) ∧
    length (stills (log o)) = length (shown (log o)) ∧
    encoded (log o) = [(frames g, gif_duration cfg, 0%Z)] ∧
    duration g = gif_duration cfg ∧ loop g = 0%Z ∧
    (has_magic d = false → frames g ≡ₚ stills (log o)) ∧
    (has_magic d = false → length (stills (log o)) ≤ 1000 →
     frames g = stills (log o)) ∧
    downloads (log o)
    = [("brain_animation_" +:+ hemi_selection cfg +:+ ".gif", g)] ∧
    errors (log o) = [] ∧
    res o = Ok tt.
Proof.
  simpl. intros Hs.
  destruct (successful_inv libs cfg up env Hs)
    as (d & lg & p & g & Hd & Hg & Hlog).
  assert (res (render_job libs cfg up env) = Ok tt) as Hres.
  { rewrite render_job_run.
    set (env0 := if transparent_bg cfg then _ else _).
    assert (res (make_gif libs cfg up d env) = Ok (p, g)) as Hg' by by rewrite Hg.
    rewrite (with_block_make_gif_Ok libs cfg up env0 d env p g Hd Hg').
    rewrite render_job_run in Hs. fold env0 in Hs.
    rewrite (with_block_make_gif_Ok libs cfg up env0 d env p g Hd Hg') in Hs.
    destruct (open_rb libs p) as [[]|e]; [done|].
    destruct Hs. simpl.
    pose proof (make_gif_quiet cfg up d env) as [Hq _]%quiet_log.
    pose proof (reported_downloads (float:=float) (Image:=Image) e) as Hr.
    obs. by rewrite Hq, Hr. }
  pose proof (make_gif_quiet cfg up d env) as [Hq1 Hq2]%quiet_log.
  rewrite Hg in Hq1, Hq2. simpl in Hq1, Hq2.
  apply make_gif_Ok in Hg
    as (stc & Hstc & Hstep & Hsh & Hlen & Hen & Hdur & Hloop & Hperm & Hord & _).
  exists d, stc, g. rewrite Hlog.
  assert (stills (Mkdtemp :: lg ++ [StSuccess "🎉 GIF Generated Successfully!";
          StImage p ("Brain activity | Hemi: " +:+ hemi_selection cfg
                     +:+ " | View: "
                     +:+ String.concat ", " (view_selection cfg));
          OpenRead p;
          StDownloadButton "⬇️ Download GIF" g
            ("brain_animation_" +:+ hemi_selection cfg +:+ ".gif")
            "image/gif";
          RmTree d]) = stills lg) as -> by by obs.
  split_and!; try done.
  - by obs.
  - rewrite Hlen. by obs.
  - rewrite <- Hen. by obs.
  - obs. by rewrite Hq1.
  - obs. by rewrite Hq2.
Qed.

(** In a successful job every still image was written while the figure
    showed the time point of its turn, and the frames of the GIF are among
    the still images. *)
Lemma successful_stills cfg up env :
  successful (log (main_panel libs cfg true (Some up) env)) →
  photographed (log (main_panel libs cfg true (Some up) env))
  = zip (Some <$> shown (log (main_panel libs cfg true (Some up) env)))
        (stills (log (main_panel libs cfg true (Some up) env))) ∧
  ∀ g, g ∈ (downloads (log (main_panel libs cfg true (Some up) env))).*2 →
       frames g ⊆ stills (log (main_panel libs cfg true (Some up) env)).
Proof.
  simpl. intros Hs.
  destruct (successful_inv libs cfg up env Hs)
    as (d & lg & p & g & Hd & Hg & Hlog).
  pose proof (make_gif_photographed libs cfg up d env _ _ _ Hg) as Hph.
  pose proof (make_gif_frames_written libs cfg up d env _ _ _ _ Hg) as Hfr.
  rewrite Hlog. split.
  - unfold photographed in *. cbn [photographed_from].
    rewrite photographed_from_app_quiet by done.
    rewrite Hph. by obs.
  - pose proof (make_gif_quiet cfg up d env) as [Hq _]%quiet_log.
    rewrite Hg in Hq. simpl in Hq.
    intros g'. obs. rewrite Hq. simpl.
    intros ->%list_elem_of_singleton. done.
Qed.

End Outcome.

(** * The properties of the specification *)

Section Claims.
Context {float Stc Brain Image : Type}.
Variable libs : @Libs float Stc Brain Image.
Implicit Types (cfg : @Config float) (up : UploadedFile) (env : environ).
Implicit Types (e : exn) (lg : list (@event float Image)).


(** X6. When the path of the temporary directory holds no wildcard of
    [glob], and up to a thousand still images: the figure was set to the
    sampled time points in their order, one still image was written after
    each, while the figure showed that time point, and the frames of the
    animated file are these still images in the same order.  So the frame
    of index [i] is the screenshot of the sampled time point of index
    [i]. *)
Theorem frames_in_time_order cfg up env :
  (∀ d, mkdtemp libs = Ok d → has_magic d = false) →
  successful (log (main_panel libs cfg true (Some up) env)) →
  length (stills (log (main_panel libs cfg true (Some up) env))) ≤ 1000 →
  ∃ d stc g,
    mkdtemp libs = Ok d ∧
    read_source_estimate libs (d </> name up) (getbuffer up) = Ok stc ∧
    shown (log (main_panel libs cfg true (Some up) env))
    = every_nth 0 (frame_step cfg) (times libs stc) ∧
    length (stills (log (main_panel libs cfg true (Some up) env)))
    = length (shown (log (main_panel libs cfg true (Some up) env))) ∧
    (downloads (log (main_panel libs cfg true (Some up) env))).*2 = [g] ∧
    frames g = stills (log (main_panel libs cfg true (Some up) env)) ∧
    photographed (log (main_panel libs cfg true (Some up) env))
    = zip (Some <$> every_nth 0 (frame_step cfg) (times libs stc))
          (frames g).
Proof.
  intros Hlit Hs Hle.
  destruct (successful_stills libs cfg up env Hs) as [Hph _].
  destruct (successful_job libs cfg up env Hs)
    as (d & stc & g & Hd & Hstc & _ & Hsh & Hlen & _ & _ & _ & _ & Hord & Hdl & _).
  specialize (Hord (Hlit d Hd) Hle).
  exists d, stc, g. split_and!; try done; [by rewrite Hdl|].
  by rewrite Hord, <- Hsh.
Qed.

(** X7. When the path of the temporary directory holds no wildcard of
    [glob], the frames of the animated file are, whatever their number,
    the still images up to their order. *)
Theorem frames_permute_stills cfg up env :
  (∀ d, mkdtemp libs = Ok d → has_magic d = false) →
  successful (log (main_panel libs cfg true (Some up) env)) →
  ∃ g,
    (downloads (log (main_panel libs cfg true (Some up) env))).*2 = [g] ∧
    frames g ≡ₚ stills (log (main_panel libs cfg true (Some up) env)).
Proof.
  intros Hlit Hs.
  destruct (successful_job libs cfg up env Hs)
    as (d & stc & g & Hd & _ & _ & _ & _ & _ & _ & _ & Hperm & _ & Hdl & _).
  exists g. split; [by rewrite Hdl|by apply Hperm, Hlit].
Qed.

(** C3. After a render job, with any configuration and whatever the
    libraries do, the environment does not hold the flag. *)
Theorem flag_absent_after_job cfg up env :
  final_env (main_panel libs cfg true (Some up) env) !! FLAG = None.
Proof. simpl. rewrite render_job_final_env. apply lookup_delete_eq. Qed.

(** Without a render job the environment is left as it is. *)
Lemma environment_kept_without_job cfg button file env :
  button = false ∨ file = None →
  final_env (main_panel libs cfg button file env) = env.
Proof. intros [->| ->]; [done|by destruct button]. Qed.

(** C4. Pressing the button without an upload shows the message and does
    nothing else: the log holds this one event and the environment is
    unchanged. *)
Theorem no_upload_only_reports cfg env :
  main_panel libs cfg true None env
  = Outcome env [StError "Please upload a file first."] (Ok tt).
Proof. done. Qed.

Lemma generation_log cfg up env e :
  generation_raises libs cfg up e →
  ∃ lg, Forall (λ ev, is_offer ev = false) lg ∧ errors lg = [] ∧
    log (main_panel libs cfg true (Some up) env) = lg ++ (reported e).1 ∧
    res (main_panel libs cfg true (Some up) env)
    = (reported (float:=float) (Image:=Image) e).2.
Proof.
  simpl. rewrite render_job_run.
  set (env0 := if transparent_bg cfg then _ else _).
  intros [Hd|(d & env1 & Hd & He)].
  - rewrite (with_block_mkdtemp_raises libs cfg up env0 e Hd).
    exists [Mkdtemp]. split_and!; try done. by repeat constructor.
  - rewrite (with_block_make_gif_raises libs cfg up env0 d env1 e Hd He).
    pose proof (make_gif_no_offer libs cfg up d env1) as Hno.
    pose proof (make_gif_quiet libs cfg up d env1) as [_ Hq]%quiet_log.
    exists (Mkdtemp :: log (make_gif libs cfg up d env1) ++ [RmTree d]).
    split_and!; try done.
    + constructor; [done|]. apply Forall_app. split; [done|by repeat constructor].
    + obs. by rewrite Hq.
Qed.

(** C5, as amended.  When load, render, screenshots or GIF assembly raise
    [e], nothing is offered: no success message, no display of the GIF, no
    download button.  When [e] is an [Exception], the error message with
    [str(e)] is shown and the job returns; any other exception is raised
    again, without a message. *)
Theorem failure_offers_nothing cfg up env e :
  generation_raises libs cfg up e →
  Forall (λ ev, is_offer ev = false)
         (log (main_panel libs cfg true (Some up) env)) ∧
  downloads (log (main_panel libs cfg true (Some up) env)) = [] ∧
  match e with
  | Exception msg =>
      errors (log (main_panel libs cfg true (Some up) env))
      = ["An error occurred during GIF generation: " +:+ msg]
      ∧ res (main_panel libs cfg true (Some up) env) = Ok tt
  | BaseException _ =>
      errors (log (main_panel libs cfg true (Some up) env)) = []
      ∧ res (main_panel libs cfg true (Some up) env) = Raise e
  end.
Proof.
  intros Hr.
  destruct (generation_log cfg up env e Hr) as (lg & Hno & Herr & Hlog & Hres).
  rewrite Hlog, Hres.
  assert (Forall (λ ev, is_offer ev = false)
            (lg ++ (reported (float:=float) (Image:=Image) e).1)) as Hall.
  { apply Forall_app. split; [done|]. destruct e; by repeat constructor. }
  split_and!; [done|by apply no_offer_downloads|].
  destruct e as [msg|msg]; simpl; obs; by rewrite Herr.
Qed.

Lemma plot_kwargs_choice cfg sd :
  transparent_xor_background cfg (plot_kwargs cfg sd).
Proof.
  unfold transparent_xor_background, plot_kwargs.
  destruct (transparent_bg cfg).
  - by rewrite lookup_insert_eq, lookup_insert_ne.
  - by rewrite lookup_insert_eq, lookup_insert_ne.
Qed.

(** C8. A successful job calls the GIF encoder once, with the duration of
    the slider and a loop count of zero, which for a GIF means to loop for
    ever; the file offered for download carries both. *)
Theorem encoder_gets_duration_and_loop cfg up env :
  successful (log (main_panel libs cfg true (Some up) env)) →
  ∃ g,
    encoded (log (main_panel libs cfg true (Some up) env))
    = [(frames g, gif_duration cfg, 0%Z)] ∧
    (downloads (log (main_panel libs cfg true (Some up) env))).*2 = [g] ∧
    duration g = gif_duration cfg ∧ loop g = 0%Z.
Proof.
  intros Hs.
  destruct (successful_job libs cfg up env Hs)
    as (d & stc & g & _ & _ & _ & _ & _ & Hen & Hdur & Hloop & _ & _ & Hdl & _).
  exists g. by rewrite Hdl.
Qed.

Lemma renders_Forall (Q : kwargs → Prop) lg :
  Forall (λ ev, match ev with StcPlot kw => Q kw | _ => True end) lg →
  Forall Q (renders lg).
Proof.
  induction 1 as [|ev lg H _ IH]; [constructor|].
  unfold renders in *. rewrite omap_cons_match.
  destruct ev; try done. by constructor.
Qed.

Lemma main_panel_plots cfg button file :
  emits (λ ev, match ev with
               | StcPlot kw => transparent_xor_background cfg kw
               | _ => True
               end)
        (main_panel libs cfg button file).
Proof.
  unfold main_panel, render_job, with_block, with_TemporaryDirectory, make_gif,
    display_and_download, get_fsaverage_path, on_error, cleanup.
  emits. apply plot_kwargs_choice.
Qed.

(** C10. A flag that was in the environment before the job, whoever set it
    and whatever the toggle, is deleted by the job and not put back: the
    environment afterwards is the one before without the flag. *)
Theorem preexisting_flag_deleted cfg up env v :
  env !! FLAG = Some v →
  final_env (main_panel libs cfg true (Some up) env) = delete FLAG env ∧
  final_env (main_panel libs cfg true (Some up) env) !! FLAG = None ∧
  final_env (main_panel libs cfg true (Some up) env) ≠ env.
Proof.
  intros Hv. simpl. rewrite render_job_final_env.
  split_and!; [done|apply lookup_delete_eq|].
  intros Heq. apply (f_equal (λ m, m !! FLAG)) in Heq.
  by rewrite lookup_delete_eq, Hv in Heq.
Qed.

End Claims.

(** C7. The name of the file offered for download is
    [brain_animation_<hemisphere>.gif]: two successful jobs with the same
    hemisphere offer the same name, whatever the libraries, the other
    options, the uploads and the environments. *)
Theorem download_name_from_hemisphere {float Stc Brain Image : Type}
    (libs1 libs2 : @Libs float Stc Brain Image) (cfg1 cfg2 : @Config float)
    (up1 up2 : UploadedFile) (env1 env2 : environ) :
  successful (log (main_panel libs1 cfg1 true (Some up1) env1)) →
  successful (log (main_panel libs2 cfg2 true (Some up2) env2)) →
  hemi_selection cfg1 = hemi_selection cfg2 →
  (downloads (log (main_panel libs1 cfg1 true (Some up1) env1))).*1
  = ["brain_animation_" +:+ hemi_selection cfg1 +:+ ".gif"] ∧
  (downloads (log (main_panel libs1 cfg1 true (Some up1) env1))).*1
  = (downloads (log (main_panel libs2 cfg2 true (Some up2) env2))).*1.
Proof.
  intros Hs1 Hs2 Hh.
  destruct (successful_job libs1 cfg1 up1 env1 Hs1)
    as (d1 & stc1 & g1 & _ & _ & _ & _ & _ & _ & _ & _ & _ & _ & Hdl1 & _).
  destruct (successful_job libs2 cfg2 up2 env2 Hs2)
    as (d2 & stc2 & g2 & _ & _ & _ & _ & _ & _ & _ & _ & _ & _ & Hdl2 & _).
  rewrite Hdl1, Hdl2. simpl.
  by rewrite Hh.
Qed.

(** * The simulated installation at work *)

(** The scenario of the specification: 100 time points and a stride of 20
    give 5 still images and an animated file of 5 frames, 0.1 s each,
    looping for ever. *)
Example hundred_points_stride_20 :
  stills (log (main_panel Demo.libs (Demo.cfg 20 false "white" "split") true
                 (Some (Demo.upload 100)) ∅))
  = [0 # 1000; 20 # 1000; 40 # 1000; 60 # 1000; 80 # 1000]%Q ∧
  encoded (log (main_panel Demo.libs (Demo.cfg 20 false "white" "split") true
                  (Some (Demo.upload 100)) ∅))
  = [([0 # 1000; 20 # 1000; 40 # 1000; 60 # 1000; 80 # 1000]%Q,
      (1 # 10)%Q, 0%Z)] ∧
  downloads (log (main_panel Demo.libs (Demo.cfg 20 false "white" "split")
                    true (Some (Demo.upload 100)) ∅))
  = [("brain_animation_split.gif",
      {| frames := [0 # 1000; 20 # 1000; 40 # 1000; 60 # 1000; 80 # 1000]%Q;
         duration := (1 # 10)%Q; loop := 0; disposal := 2 |})].
Proof. vm_compute. repeat split. Qed.


(** [frames_in_time_order] on the scenario of the specification: the
    five frames are the screenshots of the time points 0, 20, 40, 60 and
    80 ms. *)
Lemma frames_in_time_order_witness :
  ∃ g,
    (downloads (log (main_panel Demo.libs (Demo.cfg 20 false "white" "split")
                       true (Some (Demo.upload 100)) ∅))).*2 = [g] ∧
    frames g
    = stills (log (main_panel Demo.libs (Demo.cfg 20 false "white" "split")
                     true (Some (Demo.upload 100)) ∅)) ∧
    photographed (log (main_panel Demo.libs
                         (Demo.cfg 20 false "white" "split")
                         true (Some (Demo.upload 100)) ∅))
    = zip [Some (0 # 1000); Some (20 # 1000); Some (40 # 1000);
           Some (60 # 1000); Some (80 # 1000)]%Q
          (frames g).
Proof.
  assert (∀ d, mkdtemp Demo.libs = Ok d → has_magic d = false) as Hlit
    by (intros d [= <-]; reflexivity).
  assert (successful (log (main_panel Demo.libs
            (Demo.cfg 20 false "white" "split") true
            (Some (Demo.upload 100)) ∅))) as Hs by (vm_compute; discriminate).
  assert (length (stills (log (main_panel Demo.libs
            (Demo.cfg 20 false "white" "split") true
            (Some (Demo.upload 100)) ∅))) ≤ 1000) as Hle
    by (vm_compute; lia).
  destruct (frames_in_time_order Demo.libs (Demo.cfg 20 false "white" "split")
              (Demo.upload 100) ∅ Hlit Hs Hle)
    as (d & stc & g & Hd & Hstc & _ & _ & Hg & Hf & Hph).
  exists g. split; [exact Hg|]. split; [exact Hf|].
  rewrite Hph. f_equal. injection Hd as <-. injection Hstc as <-.
  vm_compute. reflexivity.
Defined.

(** C2 fails beyond a thousand frames.  With 1001 time points and a stride
    of 1, the still image of index 1000 is written to [frame_1000.png],
    which sorts between [frame_100.png] and [frame_101.png]: the animated
    file holds, at index 101, the screenshot of the last time point. *)
Theorem frame_1000_sorts_before_frame_101 :
  successful (log (main_panel Demo.libs (Demo.cfg 1 false "white" "split")
                     true (Some (Demo.upload 1001)) ∅)) ∧
  length (stills (log (main_panel Demo.libs
                         (Demo.cfg 1 false "white" "split") true
                         (Some (Demo.upload 1001)) ∅))) = 1001 ∧
  stills (log (main_panel Demo.libs (Demo.cfg 1 false "white" "split") true
                 (Some (Demo.upload 1001)) ∅)) !! 101
  = Some (101 # 1000)%Q ∧
  stills (log (main_panel Demo.libs (Demo.cfg 1 false "white" "split") true
                 (Some (Demo.upload 1001)) ∅)) !! 1000
  = Some (1000 # 1000)%Q ∧
  ∃ g,
    (downloads (log (main_panel Demo.libs (Demo.cfg 1 false "white" "split")
                       true (Some (Demo.upload 1001)) ∅))).*2 = [g] ∧
    length (frames g) = 1001 ∧
    frames g !! 100 = Some (100 # 1000)%Q ∧
    frames g !! 101 = Some (1000 # 1000)%Q ∧
    frames g !! 102 = Some (101 # 1000)%Q ∧
    frames g
    ≠ stills (log (main_panel Demo.libs (Demo.cfg 1 false "white" "split")
                     true (Some (Demo.upload 1001)) ∅)).
Proof.
  split; [vm_compute; discriminate|].
  do 3 (split; [vm_compute; reflexivity|]).
  eexists. split; [vm_compute; reflexivity|].
  do 4 (split; [vm_compute; reflexivity|]).
  intros Heq. apply (f_equal (.!! 101)) in Heq.
  vm_compute in Heq. discriminate Heq.
Qed.

(** The names of the frames stop ascending at a thousand. *)
Example frame_names_around_1000 :
  frame_name 7 = "frame_007.png" ∧ frame_name 1000 = "frame_1000.png" ∧
  sorted [frame_name 100; frame_name 101; frame_name 1000]
  = [frame_name 100; frame_name 1000; frame_name 101].
Proof. vm_compute. repeat split. Qed.

(** C5 fails for an exception that is not an [Exception]: decoding the
    upload is interrupted, nothing is shown and the exception leaves the
    script. *)
Lemma interrupt_shows_no_error :
  generation_raises
    (Demo.libs_reading (λ _ _, Raise (BaseException "KeyboardInterrupt")))
    (Demo.cfg 20 false "white" "split") (Demo.upload 100)
    (BaseException "KeyboardInterrupt") ∧
  errors (log (main_panel
                 (Demo.libs_reading
                    (λ _ _, Raise (BaseException "KeyboardInterrupt")))
                 (Demo.cfg 20 false "white" "split") true
                 (Some (Demo.upload 100)) ∅)) = [] ∧
  res (main_panel
         (Demo.libs_reading
            (λ _ _, Raise (BaseException "KeyboardInterrupt")))
         (Demo.cfg 20 false "white" "split") true
         (Some (Demo.upload 100)) ∅)
  = Raise (BaseException "KeyboardInterrupt").
Proof.
  split; [|by vm_compute].
  right. exists "/tmp/tmpk3x9", ∅. split; [done|]. by vm_compute.
Qed.

(** [failure_offers_nothing] when MNE rejects the upload. *)
Lemma failure_offers_nothing_witness :
  generation_raises
    (Demo.libs_reading (λ _ _, Raise (Exception "not a valid stc file")))
    (Demo.cfg 20 false "white" "split") (Demo.upload 100)
    (Exception "not a valid stc file") ∧
  downloads (log (main_panel
                    (Demo.libs_reading
                       (λ _ _, Raise (Exception "not a valid stc file")))
                    (Demo.cfg 20 false "white" "split") true
                    (Some (Demo.upload 100)) ∅)) = [] ∧
  errors (log (main_panel
                 (Demo.libs_reading
                    (λ _ _, Raise (Exception "not a valid stc file")))
                 (Demo.cfg 20 false "white" "split") true
                 (Some (Demo.upload 100)) ∅))
  = ["An error occurred during GIF generation: not a valid stc file"].
Proof.
  assert (generation_raises
            (Demo.libs_reading (λ _ _, Raise (Exception "not a valid stc file")))
            (Demo.cfg 20 false "white" "split") (Demo.upload 100)
            (Exception "not a valid stc file")) as Hr.
  { right. exists "/tmp/tmpk3x9", ∅. split; [reflexivity|].
    vm_compute. reflexivity. }
  destruct (failure_offers_nothing
              (Demo.libs_reading
                 (λ _ _, Raise (Exception "not a valid stc file")))
              (Demo.cfg 20 false "white" "split") (Demo.upload 100) ∅
              (Exception "not a valid stc file") Hr)
    as (_ & Hd & He & _).
  split; [exact Hr|]. split; [exact Hd|exact He].
Defined.

(** [download_name_from_hemisphere] for two jobs on the left hemisphere
    that share nothing else. *)
Lemma download_name_from_hemisphere_witness :
  (downloads (log (main_panel Demo.libs (Demo.cfg 20 false "white" "lh") true
                     (Some (Demo.upload 100)) ∅))).*1
  = ["brain_animation_lh.gif"] ∧
  (downloads (log (main_panel Demo.libs (Demo.cfg 20 false "white" "lh") true
                     (Some (Demo.upload 100)) ∅))).*1
  = (downloads (log (main_panel Demo.libs (Demo.cfg 7 true "black" "lh") true
                       (Some (Demo.upload 30)) {[FLAG := "1"]}))).*1.
Proof.
  assert (successful (log (main_panel Demo.libs
            (Demo.cfg 20 false "white" "lh") true
            (Some (Demo.upload 100)) ∅))) as Hs1 by (vm_compute; discriminate).
  assert (successful (log (main_panel Demo.libs
            (Demo.cfg 7 true "black" "lh") true
            (Some (Demo.upload 30)) {[FLAG := "1"]}))) as Hs2
    by (vm_compute; discriminate).
  exact (download_name_from_hemisphere Demo.libs Demo.libs
           (Demo.cfg 20 false "white" "lh") (Demo.cfg 7 true "black" "lh")
           (Demo.upload 100) (Demo.upload 30) ∅ {[FLAG := "1"]}
           Hs1 Hs2 eq_refl).
Defined.

(** [encoder_gets_duration_and_loop] on the scenario of the specification. *)
Lemma encoder_gets_duration_and_loop_witness :
  ∃ g,
    encoded (log (main_panel Demo.libs (Demo.cfg 20 false "white" "split")
                    true (Some (Demo.upload 100)) ∅))
    = [(frames g, (1 # 10)%Q, 0%Z)] ∧
    (downloads (log (main_panel Demo.libs (Demo.cfg 20 false "white" "split")
                       true (Some (Demo.upload 100)) ∅))).*2 = [g] ∧
    duration g = (1 # 10)%Q ∧ loop g = 0%Z.
Proof.
  assert (successful (log (main_panel Demo.libs
            (Demo.cfg 20 false "white" "split") true
            (Some (Demo.upload 100)) ∅))) as Hs by (vm_compute; discriminate).
  exact (encoder_gets_duration_and_loop Demo.libs
           (Demo.cfg 20 false "white" "split") (Demo.upload 100) ∅ Hs).
Defined.

(** The keyword arguments of the simulated renders. *)
Example kwargs_of_both_toggles :
  (λ kw, (kw !! "transparent", kw !! "background"))
    <$> renders (log (main_panel Demo.libs (Demo.cfg 20 true "black" "split")
                        true (Some (Demo.upload 100)) ∅))
  = [(Some (VBool true), None)] ∧
  (λ kw, (kw !! "transparent", kw !! "background"))
    <$> renders (log (main_panel Demo.libs (Demo.cfg 20 false "black" "split")
                        true (Some (Demo.upload 100)) ∅))
  = [(None, Some (VStr "black"))].
Proof. vm_compute. repeat split. Qed.

(** [preexisting_flag_deleted] for a flag set from outside, toggle off. *)
Lemma preexisting_flag_deleted_witness :
  ({[FLAG := "1"]} : environ) !! FLAG = Some "1" ∧
  final_env (main_panel Demo.libs (Demo.cfg 20 false "white" "split") true
               (Some (Demo.upload 100)) {[FLAG := "1"]}) = ∅ ∧
  final_env (main_panel Demo.libs (Demo.cfg 20 false "white" "split") true
               (Some (Demo.upload 100)) {[FLAG := "1"]})
  ≠ {[FLAG := "1"]}.
Proof.
  assert (({[FLAG := "1"]} : environ) !! FLAG = Some "1") as Hv
    by (vm_compute; reflexivity).
  destruct (preexisting_flag_deleted Demo.libs
              (Demo.cfg 20 false "white" "split") (Demo.upload 100)
              {[FLAG := "1"]} "1" Hv) as (Hdel & _ & Hne).
  split; [exact Hv|]. split; [|exact Hne].
  rewrite Hdel. vm_compute. reflexivity.
Defined.

(** * More of the code *)

(** ** Sampling the time points, line 134 *)

Lemma every_nth_lookup {A} (step : nat) (l : list A) : ∀ skip k,
  1 ≤ step → every_nth skip step l !! k = l !! (skip + k * step).
Proof.
  induction l as [|x l IH]; intros skip k Hs; [done|].
  destruct skip as [|s]; simpl.
  - destruct k as [|k]; [done|]. simpl.
    rewrite IH by done.
    replace (step + k * step) with (S (step - 1 + k * step)) by lia. done.
  - by rewrite IH.
Qed.

(** X1. [seq[::step]] holds, at index [k], the element of [seq] at index
    [k * step]. *)
Theorem slice_lookup {A} (step k : nat) (l : list A) :
  1 ≤ step → every_nth 0 step l !! k = l !! (k * step).
Proof. intros H. by rewrite every_nth_lookup. Qed.

Lemma slice_lookup_witness :
  every_nth 0 20 (seq 0 100) !! 3 = Some 60.
Proof.
  assert (1 ≤ 20) as H by lia.
  rewrite (slice_lookup 20 3 (seq 0 100) H). reflexivity.
Defined.

(** X2. With the bounds of the slider, [1 <= step <= 50], a sequence that
    is not empty gives at least one element and at most as many as it has,
    and no fewer than a fiftieth of them. *)
Theorem slice_length_bounds {A} (step : nat) (l : list A) :
  1 ≤ step ≤ 50 → 1 ≤ length l →
  1 ≤ length (every_nth 0 step l) ≤ length l ∧
  length l ≤ 50 * length (every_nth 0 step l).
Proof.
  intros [H1 H50] Hl. rewrite length_slice by done.
  destruct (ceil_div_spec (length l) step H1) as [Ha Hb]. nia.
Qed.

Lemma slice_length_bounds_witness :
  1 ≤ length (every_nth 0 50 (seq 0 120)) ≤ 120 ∧
  120 ≤ 50 * length (every_nth 0 50 (seq 0 120)).
Proof.
  assert (1 ≤ 50 ≤ 50) as H by lia.
  assert (1 ≤ length (seq 0 120)) as Hl by (vm_compute; lia).
  pose proof (slice_length_bounds 50 (seq 0 120) H Hl) as Hb.
  rewrite length_seq in Hb. exact Hb.
Defined.

(** X3. A stride of one, the least that the slider gives, keeps every
    element; the first element is kept by every stride. *)
Theorem slice_stride_one {A} (step : nat) (l : list A) :
  every_nth 0 1 l = l ∧ head (every_nth 0 step l) = head l.
Proof.
  split; [|by destruct l].
  induction l as [|x l IH]; [done|]. simpl. by rewrite IH.
Qed.

(** ** The names of the frames, lines 164 and 172 *)

(** X4. Two frames never share a file name, whatever their number: no
    screenshot overwrites another. *)
Theorem frame_names_distinct (i j : nat) :
  i ≠ j → frame_name i ≠ frame_name j.
Proof. intros Hne Heq. by apply (inj frame_name) in Heq. Qed.

Lemma frame_names_distinct_witness : frame_name 100 ≠ frame_name 1000.
Proof.
  assert (100 ≠ 1000) as H by lia.
  exact (frame_names_distinct 100 1000 H).
Defined.

(** X5. Up to a thousand frames, sorting the paths of the frames, in
    whatever order the directory lists them, gives them by index. *)
Theorem sorted_frame_paths (d : string) (n : nat) (l : list string) :
  n ≤ 1000 → l ≡ₚ frame_paths d 0 n → sorted l = frame_paths d 0 n.
Proof.
  intros Hn Hl. apply (Sorted_unique String.le).
  - apply (Sorted_merge_sort String.le).
  - by apply frame_paths_sorted.
  - unfold sorted. by rewrite merge_sort_Permutation.
Qed.

Lemma sorted_frame_paths_witness :
  sorted (reverse (frame_paths "/tmp/frames" 0 12))
  = frame_paths "/tmp/frames" 0 12.
Proof.
  assert (12 ≤ 1000) as Hn by lia.
  assert (reverse (frame_paths "/tmp/frames" 0 12)
          ≡ₚ frame_paths "/tmp/frames" 0 12) as Hp
    by apply reverse_Permutation.
  exact (sorted_frame_paths "/tmp/frames" 12 _ Hn Hp).
Defined.

(** ** Runs that may fail *)

(** Computes the observations of a log given by its events. *)
Ltac obs_all :=
  unfold stills, shown, encoded, renders, downloads, errors, removed,
    progress, infos, stages in *;
  repeat first [rewrite omap_app | rewrite omap_cons_match | rewrite omap_nil_eq];
  cbv beta iota; cbn [app]; rewrite ?app_nil_r.

Ltac fin :=
  split_and!;
  first [ done | simpl; lia | by constructor
        | by apply prefix_cons, prefix_nil | by apply prefix_nil | idtac ].

Ltac early :=
  simplify_eq; obs_all;
  split_and!;
  first
    [ done | by apply Forall_nil | simpl; lia
    | intros ? ?; split; [apply prefix_nil | done]
    | intros Hne; exfalso; by apply Hne ].

Section AnyRun.
Context {float Stc Brain Image : Type}.
Variable libs : @Libs float Stc Brain Image.
Implicit Types (cfg : @Config float) (up : UploadedFile) (env : environ).
Implicit Types (e : exn) (lg : list (@event float Image)).
Implicit Types (files : gmap string Image).

Lemma frame_loop_any total d ts : ∀ i brain files env env' lg r,
  frame_loop libs total d i ts brain files env = Outcome env' lg r →
  i + length ts = total →
  shown lg `prefix_of` ts ∧
  length (progress lg) = length (stills lg) ∧
  length (stills lg) ≤ length (shown lg) ≤ S (length (stills lg)) ∧
  Forall (λ nd, 1 ≤ nd.1 ≤ nd.2) (progress lg) ∧
  renders lg = [] ∧ infos lg = [] ∧
  (∀ bf, r = Ok bf → shown lg = ts ∧ length (stills lg) = length ts).
Proof.
  induction ts as [|t ts IH]; intros i brain files env env' lg r H Htot.
  - simpl in H. unfold ret in H. simplify_eq. obs_all. fin.
  - simpl in H. unfold bind, call, bind, emit, lift in H.
    destruct (set_time libs brain t) as [brain1|e1].
    2:{ simpl in H. simplify_eq. obs_all. simpl. fin. }
    destruct (save_image libs brain1 _) as [img|e2].
    2:{ simpl in H. simplify_eq. obs_all. simpl. fin. }
    simpl in H.
    destruct (frame_loop _ _ _ _ _ _ _ _) as [env2 lg2 r2] eqn:Hloop.
    simpl in Htot.
    apply IH in Hloop as (Hp & Hpl & Hsl & Hpr & Hre & Hin & Hok); [|lia].
    simplify_eq. obs_all. simpl.
    fin.
    + by apply prefix_cons.
    + constructor; [simpl; lia|done].
    + intros bf ->. destruct (Hok bf eq_refl) as [-> ->]. done.
Qed.

Lemma imread_all_any files fs : ∀ env env' lg r,
  imread_all libs files fs env = Outcome env' lg r →
  shown lg = [] ∧ stills lg = [] ∧ progress lg = [] ∧ renders lg = [] ∧
  infos lg = [].
Proof.
  induction fs as [|f fs IH]; intros env env' lg r H.
  - simpl in H. unfold ret in H. by simplify_eq.
  - simpl in H. unfold bind, imread_file, call, bind, emit, lift, ret, raise in H.
    destruct (imread libs f) as [[]|e1]; [|by simplify_eq].
    destruct (files !! f) as [img|]; simpl in H; [|by simplify_eq].
    destruct (imread_all _ _ _ _) as [env2 lg2 r2] eqn:Hrest.
    apply IH in Hrest as (H1 & H2 & H3 & H4 & H5).
    destruct r2; simpl in H; simplify_eq; obs_all; by rewrite H1, H2, H3, H4, H5.
Qed.

(** What every run of lines 123-183 keeps to, whether it returns or not. *)
Lemma make_gif_any cfg up d env env' lg r :
  make_gif libs cfg up d env = Outcome env' lg r →
  Forall (λ nd, 1 ≤ nd.1 ≤ nd.2) (progress lg) ∧
  length (progress lg) = length (stills lg) ∧
  length (stills lg) ≤ length (shown lg) ≤ S (length (stills lg)) ∧
  (∀ stc,
     read_source_estimate libs (d </> name up) (getbuffer up) = Ok stc →
     shown lg `prefix_of` every_nth 0 (frame_step cfg) (times libs stc) ∧
     ∀ pg, r = Ok pg →
       infos lg
       = ["Generating "
          +:+ str_of_nat (length (every_nth 0 (frame_step cfg) (times libs stc)))
          +:+ " frames..."]) ∧
  (renders lg ≠ [] →
   ∃ fs_dir stc,
     fetch_fsaverage libs = Ok fs_dir ∧
     read_source_estimate libs (d </> name up) (getbuffer up) = Ok stc ∧
     1 ≤ frame_step cfg ∧
     renders lg = [plot_kwargs cfg (parent libs fs_dir)]).
Proof.
  intros H.
  unfold make_gif, get_fsaverage_path, slice_step, call, bind, emit, lift,
    ret, raise in H.
  destruct (open_wb libs _) as [[]|]; [|early].
  destruct (set_3d_backend libs _) as [[]|]; [|early].
  destruct (fetch_fsaverage libs) as [fs_dir|]; [|early].
  destruct (read_source_estimate libs _ _) as [stc|] eqn:Hstc;
    [|early].
  destruct (frame_step cfg) as [|k] eqn:Hstep; [early|].
  destruct (plot libs stc _) as [brain|].
  2:{ simplify_eq. obs_all. fin.
      - intros stc' [= <-]. by fin.
      - intros _. exists fs_dir, stc. by fin. }
  destruct (mkdir libs _) as [[]|].
  2:{ simplify_eq. obs_all. fin.
      - intros stc' [= <-]. by fin.
      - intros _. exists fs_dir, stc. by fin. }
  destruct (frame_loop _ _ _ _ _ _ _ _) as [env2 lg2 r2] eqn:Hloop.
  apply frame_loop_any in Hloop
    as (Hp & Hpl & Hsl & Hpr & Hre & Hin & Hok); [|done].
  destruct r2 as [[b files]|].
  2:{ simplify_eq. obs_all. rewrite Hre, Hin. fin.
      - intros stc' [= <-]. by fin.
      - intros _. exists fs_dir, stc. by fin. }
  destruct (Hok _ eq_refl) as [Hsh Hst].
  destruct (close libs _) as [[]|].
  2:{ simplify_eq. obs_all. rewrite Hre, Hin. fin.
      - intros stc' [= <-]. by fin.
      - intros _. exists fs_dir, stc. by fin. }
  destruct (imread_all _ _ _ _) as [env3 lg3 r3] eqn:Hread.
  apply imread_all_any in Hread as (H1 & H2 & H3 & H4 & H5).
  destruct r3 as [images|].
  2:{ simplify_eq. obs_all. rewrite Hre, Hin, H1, H2, H3, H4, H5, ?app_nil_r. fin.
      - intros stc' [= <-]. by fin.
      - intros _. exists fs_dir, stc. by fin. }
  destruct (mimsave libs _ _ _ _ _) as [[]|].
  - simplify_eq. obs_all. rewrite Hre, Hin, H1, H2, H3, H4, H5, ?app_nil_r. fin.
    + intros stc' [= <-]. by fin.
    + intros _. exists fs_dir, stc. by fin.
  - simplify_eq. obs_all. rewrite Hre, Hin, H1, H2, H3, H4, H5, ?app_nil_r. fin.
    + intros stc' [= <-]. by fin.
    + intros _. exists fs_dir, stc. by fin.
Qed.

End AnyRun.

Section WholeJob.
Context {float Stc Brain Image : Type}.
Variable libs : @Libs float Stc Brain Image.
Implicit Types (cfg : @Config float) (up : UploadedFile) (env : environ).
Implicit Types (e : exn) (lg : list (@event float Image)).

(** The log and the result of a render job, from those of lines 123-183. *)
Lemma job_log cfg up env d :
  mkdtemp libs = Ok d →
  log (main_panel libs cfg true (Some up) env)
  = Mkdtemp :: log (make_gif libs cfg up d env)
    ++ match res (make_gif libs cfg up d env) with
       | Raise e => RmTree d :: (reported e).1
       | Ok pg =>
           [StSuccess "🎉 GIF Generated Successfully!";
            StImage pg.1 ("Brain activity | Hemi: " +:+ hemi_selection cfg
                          +:+ " | View: "
                          +:+ String.concat ", " (view_selection cfg));
            OpenRead pg.1]
           ++ match open_rb libs pg.1 with
              | Ok _ =>
                  [StDownloadButton "⬇️ Download GIF" pg.2
                     ("brain_animation_" +:+ hemi_selection cfg +:+ ".gif")
                     "image/gif";
                   RmTree d]
              | Raise e => RmTree d :: (reported e).1
              end
       end ∧
  res (main_panel libs cfg true (Some up) env)
  = match res (make_gif libs cfg up d env) with
    | Raise e => (reported (float:=float) (Image:=Image) e).2
    | Ok pg =>
        match open_rb libs pg.1 with
        | Ok _ => Ok tt
        | Raise e => (reported (float:=float) (Image:=Image) e).2
        end
    end.
Proof.
  intros Hd. simpl. rewrite render_job_run.
  set (env0 := if transparent_bg cfg then _ else _).
  destruct (res (make_gif libs cfg up d env)) as [[p g]|e] eqn:Hg.
  - rewrite (with_block_make_gif_Ok libs cfg up env0 d env p g Hd Hg).
    simpl. destruct (open_rb libs p) as [[]|e]; simpl.
    + by rewrite <- ?app_assoc.
    + by rewrite <- ?app_assoc.
  - rewrite (with_block_make_gif_raises libs cfg up env0 d env e Hd Hg).
    simpl. by rewrite <- ?app_assoc.
Qed.

Lemma job_log_no_dir cfg up env e :
  mkdtemp libs = Raise e →
  log (main_panel libs cfg true (Some up) env) = Mkdtemp :: (reported e).1 ∧
  res (main_panel libs cfg true (Some up) env)
  = (reported (float:=float) (Image:=Image) e).2.
Proof.
  intros Hd. simpl. rewrite render_job_run.
  set (env0 := if transparent_bg cfg then _ else _).
  by rewrite (with_block_mkdtemp_raises libs cfg up env0 e Hd).
Qed.

Lemma reported_obs e :
  stills (reported (float:=float) (Image:=Image) e).1 = [] ∧
  shown (reported (float:=float) (Image:=Image) e).1 = [] ∧
  progress (reported (float:=float) (Image:=Image) e).1 = [] ∧
  renders (reported (float:=float) (Image:=Image) e).1 = [] ∧
  infos (reported (float:=float) (Image:=Image) e).1 = [] ∧
  removed (reported (float:=float) (Image:=Image) e).1 = [] ∧
  encoded (reported (float:=float) (Image:=Image) e).1 = [].
Proof. by destruct e. Qed.

(** Screenshots, time points, progress, render calls and announcements
    all happen within lines 123-183. *)
Lemma job_obs cfg up env d :
  mkdtemp libs = Ok d →
  stills (log (main_panel libs cfg true (Some up) env))
  = stills (log (make_gif libs cfg up d env)) ∧
  shown (log (main_panel libs cfg true (Some up) env))
  = shown (log (make_gif libs cfg up d env)) ∧
  progress (log (main_panel libs cfg true (Some up) env))
  = progress (log (make_gif libs cfg up d env)) ∧
  renders (log (main_panel libs cfg true (Some up) env))
  = renders (log (make_gif libs cfg up d env)) ∧
  infos (log (main_panel libs cfg true (Some up) env))
  = infos (log (make_gif libs cfg up d env)).
Proof.
  intros Hd. destruct (job_log cfg up env d Hd) as [-> _].
  destruct (res (make_gif libs cfg up d env)) as [[p g]|e].
  - simpl. destruct (open_rb libs p) as [[]|e]; simpl.
    + obs_all. by rewrite ?app_nil_r.
    + destruct (reported_obs e) as (H1 & H2 & H3 & H4 & H5 & _).
      obs_all. by rewrite H1, H2, H3, H4, H5, ?app_nil_r.
  - destruct (reported_obs e) as (H1 & H2 & H3 & H4 & H5 & _).
    obs_all. by rewrite H1, H2, H3, H4, H5, ?app_nil_r.
Qed.

Lemma job_obs_no_dir cfg up env e :
  mkdtemp libs = Raise e →
  stills (log (main_panel libs cfg true (Some up) env)) = [] ∧
  shown (log (main_panel libs cfg true (Some up) env)) = [] ∧
  progress (log (main_panel libs cfg true (Some up) env)) = [] ∧
  renders (log (main_panel libs cfg true (Some up) env)) = [] ∧
  infos (log (main_panel libs cfg true (Some up) env)) = [] ∧
  removed (log (main_panel libs cfg true (Some up) env)) = [].
Proof.
  intros Hd. destruct (job_log_no_dir cfg up env e Hd) as [-> _].
  destruct (reported_obs e) as (H1 & H2 & H3 & H4 & H5 & H6 & _).
  obs_all. by rewrite H1, H2, H3, H4, H5, H6.
Qed.

Lemma make_gif_run cfg up d env :
  make_gif libs cfg up d env
  = Outcome env (log (make_gif libs cfg up d env))
            (res (make_gif libs cfg up d env)).
Proof. apply (pure_make_gif libs cfg up d env env). Qed.

End WholeJob.

(** ** The render call, lines 136-155 *)

Section RenderCall.
Context {float Stc Brain Image : Type}.
Variable libs : @Libs float Stc Brain Image.
Implicit Types (cfg : @Config float) (up : UploadedFile) (env : environ).

(** When everything before line 155 returns, [stc.plot] is called. *)
Lemma make_gif_plots cfg up d env fs_dir stc :
  open_wb libs (d </> name up) = Ok tt →
  set_3d_backend libs "pyvista" = Ok tt →
  fetch_fsaverage libs = Ok fs_dir →
  read_source_estimate libs (d </> name up) (getbuffer up) = Ok stc →
  1 ≤ frame_step cfg →
  renders (log (make_gif libs cfg up d env)) ≠ [].
Proof.
  intros Hwb Hbk Hfs Hstc Hstep.
  unfold make_gif, get_fsaverage_path, slice_step, call, bind, emit, lift,
    ret, raise.
  rewrite Hwb, Hbk, Hfs, Hstc.
  destruct (frame_step cfg) as [|k]; [lia|].
  destruct (plot libs stc _) as [brain|]; [|by obs_all].
  destruct (mkdir libs _) as [[]|]; [|by obs_all].
  destruct (frame_loop _ _ _ _ _ _ _ _) as [env2 lg2 [[b files]|]];
    [|by obs_all].
  destruct (close libs _) as [[]|]; [|by obs_all].
  destruct (imread_all _ _ _ _) as [env3 lg3 [images|]]; [|by obs_all].
  destruct (mimsave libs _ _ _ _ _) as [[]|]; by obs_all.
Qed.

(** A job that gets as far as the render call makes it once, with the
    dictionary of lines 136-153. *)
Lemma reached_render_call cfg up env :
  reaches_render libs cfg up →
  ∃ fs_dir,
    fetch_fsaverage libs = Ok fs_dir ∧
    renders (log (main_panel libs cfg true (Some up) env))
    = [plot_kwargs cfg (parent libs fs_dir)].
Proof.
  intros (d & fs_dir & stc & Hd & Hwb & Hbk & Hfs & Hstc & Hstep).
  destruct (job_obs libs cfg up env d Hd) as (_ & _ & _ & -> & _).
  destruct (make_gif_any libs cfg up d env _ _ _
              (make_gif_run libs cfg up d env)) as (_ & _ & _ & _ & Hr).
  destruct (Hr (make_gif_plots cfg up d env fs_dir stc Hwb Hbk Hfs Hstc Hstep))
    as (fs_dir' & _ & Hfs' & _ & _ & Hren).
  exists fs_dir. split; [done|].
  rewrite Hfs in Hfs'. injection Hfs' as <-. done.
Qed.

(** C6. With the transparent background on, two configurations that differ
    only in the background colour give the same dictionary [plot_kwargs],
    with ['transparent'] set and without ['background'], and the same run;
    and a job that gets as far as the render call passes, with either
    configuration, this one dictionary to [stc.plot]. *)
Theorem background_inert_when_transparent cfg1 cfg2 :
  transparent_bg cfg1 = true →
  same_except_background cfg1 cfg2 →
  (∀ sd,
     plot_kwargs cfg1 sd = plot_kwargs cfg2 sd ∧
     plot_kwargs cfg1 sd !! "transparent" = Some (VBool true) ∧
     plot_kwargs cfg1 sd !! "background" = None) ∧
  (∀ button file env,
     main_panel libs cfg1 button file env
     = main_panel libs cfg2 button file env) ∧
  (∀ up env,
     reaches_render libs cfg1 up →
     ∃ kw,
       renders (log (main_panel libs cfg1 true (Some up) env)) = [kw] ∧
       renders (log (main_panel libs cfg2 true (Some up) env)) = [kw] ∧
       kw !! "transparent" = Some (VBool true) ∧
       kw !! "background" = None).
Proof.
  intros Ht (H1 & H2 & H3 & H4 & H5 & H6 & H7 & H8 & H9).
  assert (∀ sd, plot_kwargs cfg1 sd !! "transparent" = Some (VBool true) ∧
                plot_kwargs cfg1 sd !! "background" = None) as Hkeys.
  { intros sd. pose proof (plot_kwargs_choice cfg1 sd) as Hc.
    unfold transparent_xor_background in Hc. by rewrite Ht in Hc. }
  assert (∀ button file env,
            main_panel libs cfg1 button file env
            = main_panel libs cfg2 button file env) as Hrun.
  { intros button file env. destruct cfg1, cfg2. simpl in *. by subst. }
  split_and!; [|done|].
  - intros sd. split; [|done].
    unfold plot_kwargs. by rewrite <- H1, Ht, H2, H3, H4, H5, H6, H7.
  - intros up env Hreach.
    destruct (reached_render_call cfg1 up env Hreach) as (fs_dir & _ & Hren).
    exists (plot_kwargs cfg1 (parent libs fs_dir)).
    split_and!; [done| |apply Hkeys..].
    by rewrite <- Hrun.
Qed.

(** C9. In every run, the keyword arguments of every call of [stc.plot]
    hold exactly one of ['transparent'] and ['background']:
    ['transparent'], set to [True], when the toggle is on, and otherwise
    ['background'], set to the selected colour.  A job that gets as far as
    the render call makes it, once, with such a dictionary. *)
Theorem kwargs_transparent_xor_background cfg button file env :
  Forall (transparent_xor_background cfg)
         (renders (log (main_panel libs cfg button file env))) ∧
  (∀ up,
     reaches_render libs cfg up →
     ∃ kw,
       renders (log (main_panel libs cfg true (Some up) env)) = [kw] ∧
       transparent_xor_background cfg kw).
Proof.
  split; [apply renders_Forall, main_panel_plots|].
  intros up Hreach.
  destruct (reached_render_call cfg up env Hreach) as (fs_dir & _ & Hren).
  exists (plot_kwargs cfg (parent libs fs_dir)).
  split; [done|apply plot_kwargs_choice].
Qed.

End RenderCall.

(** The simulated installation gets as far as the render call. *)
Lemma demo_reaches_render step transparent background hemi n :
  1 ≤ step →
  reaches_render Demo.libs (Demo.cfg step transparent background hemi)
                 (Demo.upload n).
Proof.
  intros Hstep. unfold reaches_render. do 3 eexists.
  split_and!; [reflexivity..|done].
Qed.

(** [background_inert_when_transparent] for white and black. *)
Lemma background_inert_when_transparent_witness :
  transparent_bg (Demo.cfg 20 true "white" "split") = true ∧
  same_except_background (Demo.cfg 20 true "white" "split")
                         (Demo.cfg 20 true "black" "split") ∧
  main_panel Demo.libs (Demo.cfg 20 true "white" "split") true
             (Some (Demo.upload 100)) ∅
  = main_panel Demo.libs (Demo.cfg 20 true "black" "split") true
               (Some (Demo.upload 100)) ∅ ∧
  ∃ kw,
    renders (log (main_panel Demo.libs (Demo.cfg 20 true "white" "split")
                    true (Some (Demo.upload 100)) ∅)) = [kw] ∧
    renders (log (main_panel Demo.libs (Demo.cfg 20 true "black" "split")
                    true (Some (Demo.upload 100)) ∅)) = [kw] ∧
    kw !! "transparent" = Some (VBool true) ∧
    kw !! "background" = None.
Proof.
  assert (transparent_bg (Demo.cfg 20 true "white" "split") = true) as Ht
    by reflexivity.
  assert (same_except_background (Demo.cfg 20 true "white" "split")
                                 (Demo.cfg 20 true "black" "split")) as Hs
    by (repeat split; reflexivity).
  assert (1 ≤ 20) as Hstep by lia.
  destruct (background_inert_when_transparent Demo.libs
              (Demo.cfg 20 true "white" "split")
              (Demo.cfg 20 true "black" "split") Ht Hs)
    as (_ & Hrun & Hkw).
  split; [exact Ht|]. split; [exact Hs|].
  split; [exact (Hrun true (Some (Demo.upload 100)) ∅)|].
  exact (Hkw (Demo.upload 100) ∅
           (demo_reaches_render 20 true "white" "split" 100 Hstep)).
Defined.

(** [kwargs_transparent_xor_background] on the scenario of the
    specification, with the toggle off and black selected: the one render
    call gets ['background'] and no ['transparent']. *)
Lemma kwargs_transparent_xor_background_witness :
  ∃ kw,
    renders (log (main_panel Demo.libs (Demo.cfg 20 false "black" "split")
                    true (Some (Demo.upload 100)) ∅)) = [kw] ∧
    kw !! "background" = Some (VStr "black") ∧
    kw !! "transparent" = None.
Proof.
  assert (1 ≤ 20) as Hstep by lia.
  destruct (kwargs_transparent_xor_background Demo.libs
              (Demo.cfg 20 false "black" "split") true
              (Some (Demo.upload 100)) ∅) as [_ Hkw].
  exact (Hkw (Demo.upload 100)
           (demo_reaches_render 20 false "black" "split" 100 Hstep)).
Defined.

Section MoreProperties.
Context {float Stc Brain Image : Type}.
Variable libs : @Libs float Stc Brain Image.
Implicit Types (cfg : @Config float) (up : UploadedFile) (env : environ).
Implicit Types (e : exn) (lg : list (@event float Image)).

(** ** The frame loop, lines 162-166 *)

(** X8. In every run, every value given to the progress bar is a
    quotient [num / den] with [1 <= num <= den]: it lies in the range that
    the bar accepts, and the denominator is never zero. *)
Theorem progress_in_range cfg button file env :
  Forall (λ nd, 1 ≤ nd.1 ≤ nd.2)
         (progress (log (main_panel libs cfg button file env))).
Proof.
  destruct button; [|by constructor].
  destruct file as [up|]; [|by repeat constructor].
  destruct (mkdtemp libs) as [d|e] eqn:Hd.
  - destruct (job_obs libs cfg up env d Hd) as (_ & _ & -> & _).
    by destruct (make_gif_any libs cfg up d env _ _ _
                   (make_gif_run libs cfg up d env)) as (H & _).
  - destruct (job_obs_no_dir libs cfg up env e Hd) as (_ & _ & -> & _).
    constructor.
Qed.

(** X9. In every run, the time points shown by the figure are the first
    sampled time points, in their order and without a gap; a screenshot is
    taken after each [set_time], so that there are as many screenshots as
    time points shown, or one fewer when the run stopped in between; the
    progress bar moves once per screenshot. *)
Theorem time_points_in_order cfg up env d stc :
  mkdtemp libs = Ok d →
  read_source_estimate libs (d </> name up) (getbuffer up) = Ok stc →
  shown (log (main_panel libs cfg true (Some up) env))
    `prefix_of` every_nth 0 (frame_step cfg) (times libs stc) ∧
  length (stills (log (main_panel libs cfg true (Some up) env)))
    ≤ length (shown (log (main_panel libs cfg true (Some up) env))) ∧
  length (shown (log (main_panel libs cfg true (Some up) env)))
    ≤ S (length (stills (log (main_panel libs cfg true (Some up) env)))) ∧
  length (progress (log (main_panel libs cfg true (Some up) env)))
  = length (stills (log (main_panel libs cfg true (Some up) env))).
Proof.
  intros Hd Hstc.
  destruct (job_obs libs cfg up env d Hd) as (-> & -> & -> & _).
  destruct (make_gif_any libs cfg up d env _ _ _
              (make_gif_run libs cfg up d env))
    as (_ & Hpl & [Hs1 Hs2] & Hread & _).
  destruct (Hread stc Hstc) as [Hp _]. done.
Qed.

(** X10. A source estimate without time points gives no screenshot and no
    progress, in any run; if the job is successful all the same, the
    encoder was called with no frame and the GIF on offer has none. *)
Theorem no_time_points_no_frames cfg up env d stc :
  mkdtemp libs = Ok d →
  read_source_estimate libs (d </> name up) (getbuffer up) = Ok stc →
  times libs stc = [] →
  shown (log (main_panel libs cfg true (Some up) env)) = [] ∧
  stills (log (main_panel libs cfg true (Some up) env)) = [] ∧
  progress (log (main_panel libs cfg true (Some up) env)) = [] ∧
  (successful (log (main_panel libs cfg true (Some up) env)) →
   encoded (log (main_panel libs cfg true (Some up) env))
   = [([], gif_duration cfg, 0%Z)] ∧
   ∃ g, (downloads (log (main_panel libs cfg true (Some up) env))).*2 = [g]
        ∧ frames g = []).
Proof.
  intros Hd Hstc Ht.
  destruct (job_obs libs cfg up env d Hd) as (Hsti & Hsho & Hpro & _).
  destruct (make_gif_any libs cfg up d env _ _ _
              (make_gif_run libs cfg up d env))
    as (_ & Hpl & [Hs1 Hs2] & Hread & _).
  destruct (Hread stc Hstc) as [Hp _].
  rewrite <- Hsho in Hp, Hs1. rewrite <- Hsti in Hs1, Hpl.
  rewrite <- Hpro in Hpl. clear Hsho Hsti Hpro Hs2 Hread.
  rewrite Ht in Hp.
  assert (shown (log (main_panel libs cfg true (Some up) env)) = []) as Hsh.
  { destruct Hp as [k Hk]. symmetry in Hk. by apply app_eq_nil in Hk as [-> _]. }
  rewrite Hsh in Hs1. apply Nat.le_0_r, length_zero_iff_nil in Hs1.
  pose proof Hs1 as Hst.
  rewrite Hst in Hpl. apply length_zero_iff_nil in Hpl.
  split_and!; try done.
  intros Hs.
  destruct (successful_stills libs cfg up env Hs) as [_ Hsub].
  destruct (successful_job libs cfg up env Hs)
    as (d' & stc' & g & _ & _ & _ & _ & _ & Hen & _ & _ & _ & _ & Hdl & _).
  simpl in Hen, Hsub, Hdl. simpl in Hst.
  assert (frames g = []) as Hnil.
  { specialize (Hsub g). rewrite Hdl, Hst in Hsub.
    destruct (frames g) as [|img imgs]; [done|].
    exfalso. apply (not_elem_of_nil img), Hsub; by left. }
  rewrite Hnil in Hen. split; [done|].
  exists g. simpl. by rewrite Hdl.
Qed.

(** ** The announcement, line 157 *)

(** X11. A successful job has announced, before the loop, the number of
    screenshots that it went on to take. *)
Theorem announced_count cfg up env :
  successful (log (main_panel libs cfg true (Some up) env)) →
  infos (log (main_panel libs cfg true (Some up) env))
  = ["Generating "
     +:+ str_of_nat
           (length (stills (log (main_panel libs cfg true (Some up) env))))
     +:+ " frames..."].
Proof.
  intros Hs.
  destruct (successful_job libs cfg up env Hs)
    as (d & stc & g & Hd & Hstc & _ & Hsh & Hlen & _).
  simpl in Hsh, Hlen.
  destruct (successful_inv libs cfg up env Hs)
    as (d' & lg & p & g' & Hd' & Hg & _).
  rewrite Hd in Hd'. injection Hd' as <-.
  destruct (job_obs libs cfg up env d Hd) as (_ & _ & _ & _ & Hin).
  simpl in Hin. simpl. rewrite Hin, Hlen, Hsh.
  destruct (make_gif_any libs cfg up d env _ _ _ Hg) as (_ & _ & _ & Hread & _).
  destruct (Hread stc Hstc) as [_ Hinfo].
  rewrite Hg. simpl. by apply (Hinfo (p, g')).
Qed.

(** ** The render call, lines 132-155 *)

(** X12. The figure is rendered at most once in a run, and only after
    the fsaverage files were fetched and the upload was decoded; the
    [subjects_dir] that it is given is the directory above the one that
    [fetch_fsaverage] returned, as [get_fsaverage_path] computes it. *)
Theorem render_call_arguments cfg button file env :
  renders (log (main_panel libs cfg button file env)) ≠ [] →
  ∃ up d fs_dir stc,
    button = true ∧ file = Some up ∧
    mkdtemp libs = Ok d ∧
    fetch_fsaverage libs = Ok fs_dir ∧
    read_source_estimate libs (d </> name up) (getbuffer up) = Ok stc ∧
    1 ≤ frame_step cfg ∧
    renders (log (main_panel libs cfg button file env))
    = [plot_kwargs cfg (parent libs fs_dir)] ∧
    plot_kwargs cfg (parent libs fs_dir) !! "subjects_dir"
    = Some (VPath (parent libs fs_dir)).
Proof.
  destruct button; [|by intros []].
  destruct file as [up|]; [|by intros []].
  destruct (mkdtemp libs) as [d|e] eqn:Hd.
  - destruct (job_obs libs cfg up env d Hd) as (_ & _ & _ & -> & _).
    destruct (make_gif_any libs cfg up d env _ _ _
                (make_gif_run libs cfg up d env)) as (_ & _ & _ & _ & Hr).
    intros Hne. destruct (Hr Hne) as (fs_dir & stc & Hf & Hstc & Hstep & Hren).
    exists up, d, fs_dir, stc. split_and!; try done.
    unfold plot_kwargs. by destruct (transparent_bg cfg).
  - destruct (job_obs_no_dir libs cfg up env e Hd) as (_ & _ & _ & -> & _).
    by intros [].
Qed.

End MoreProperties.

Section Endings.
Context {float Stc Brain Image : Type}.
Variable libs : @Libs float Stc Brain Image.
Implicit Types (cfg : @Config float) (up : UploadedFile) (env : environ).
Implicit Types (e : exn) (lg : list (@event float Image)).

Lemma make_gif_keeps_dir cfg up d :
  emits (λ ev, removed [ev] = []) (make_gif libs cfg up d).
Proof. unfold make_gif, get_fsaverage_path. emits. Qed.

Lemma kept_dir_log lg :
  Forall (λ ev, removed [ev] = []) lg → removed lg = [].
Proof.
  induction 1 as [|ev lg H _ IH]; [done|].
  unfold removed in *. rewrite omap_cons_match in *.
  rewrite IH. by case_match.
Qed.

Lemma no_offer_offers lg :
  Forall (λ ev, is_offer ev = false) lg → offers lg = [].
Proof.
  induction 1 as [|ev lg H _ IH]; [done|].
  unfold offers in *. rewrite filter_cons_False; [done|].
  rewrite H. exact id.
Qed.

(** ** The temporary directory, line 122 *)

(** X13. The temporary directory, once made, is removed in every run,
    once, and as the last thing but the error message: nothing is read or
    written after it is gone. *)
Theorem temp_dir_removed cfg up env d :
  mkdtemp libs = Ok d →
  ∃ pre tail,
    log (main_panel libs cfg true (Some up) env) = pre ++ RmTree d :: tail ∧
    removed pre = [] ∧
    (tail = [] ∨ ∃ body, tail = [StError body]).
Proof.
  intros Hd. destruct (job_log libs cfg up env d Hd) as [-> _].
  pose proof (kept_dir_log _ (make_gif_keeps_dir cfg up d env)) as Hk.
  assert (∀ e, (reported (float:=float) (Image:=Image) e).1 = []
               ∨ ∃ body, (reported (float:=float) (Image:=Image) e).1
                         = [StError body]) as Hrep.
  { intros [msg|msg]; [right|left]; eauto. }
  destruct (res (make_gif libs cfg up d env)) as [[p g]|e].
  - simpl. destruct (open_rb libs p) as [[]|e].
    + eexists (Mkdtemp :: log (make_gif libs cfg up d env) ++ [_; _; _; _]), [].
      split_and!; [simpl; by rewrite <- app_assoc| |by left].
      obs_all. by rewrite Hk.
    + eexists (Mkdtemp :: log (make_gif libs cfg up d env) ++ [_; _; _]), _.
      split_and!; [simpl; by rewrite <- app_assoc| |apply Hrep].
      obs_all. by rewrite Hk.
  - eexists (Mkdtemp :: log (make_gif libs cfg up d env)), _.
    split_and!; [done| |apply Hrep].
    obs_all. by rewrite Hk.
Qed.

(** ** The [try] statement, lines 121-203 *)

(** X14. No [Exception] leaves the script: what a run raises, if
    anything, is an exception that [except Exception] does not handle. *)
Theorem only_base_exceptions_escape cfg button file env e :
  res (main_panel libs cfg button file env) = Raise e →
  ∃ msg, e = BaseException msg.
Proof.
  destruct button; [|done]. destruct file as [up|]; [|done].
  assert (∀ e', (reported (float:=float) (Image:=Image) e').2 = Raise e →
                ∃ msg, e = BaseException msg) as Hrep.
  { intros [msg|msg] [=]. eauto. }
  destruct (mkdtemp libs) as [d|e0] eqn:Hd.
  - destruct (job_log libs cfg up env d Hd) as [_ ->].
    destruct (res (make_gif libs cfg up d env)) as [[p g]|e1]; [|apply Hrep].
    simpl. destruct (open_rb libs p) as [[]|e1]; [done|apply Hrep].
  - destruct (job_log_no_dir libs cfg up env e0 Hd) as [_ ->]. apply Hrep.
Qed.

(** X15. A run shows at most one error message and offers at most one
    download, and never both. *)
Theorem error_excludes_download cfg button file env :
  length (errors (log (main_panel libs cfg button file env))) ≤ 1 ∧
  length (downloads (log (main_panel libs cfg button file env))) ≤ 1 ∧
  (errors (log (main_panel libs cfg button file env)) = []
   ∨ downloads (log (main_panel libs cfg button file env)) = []).
Proof.
  destruct button; [|simpl; split_and!; [lia..|by left]].
  destruct file as [up|]; [|simpl; split_and!; [lia..|by right]].
  assert (∀ e, length (errors (reported (float:=float) (Image:=Image) e).1) ≤ 1
               ∧ downloads (reported (float:=float) (Image:=Image) e).1 = [])
    as Hrep.
  { intros [msg|msg]; simpl; split; (done || lia). }
  destruct (mkdtemp libs) as [d|e0] eqn:Hd.
  - destruct (job_log libs cfg up env d Hd) as [-> _].
    pose proof (make_gif_quiet libs cfg up d env) as [Hq1 Hq2]%quiet_log.
    destruct (res (make_gif libs cfg up d env)) as [[p g]|e1].
    + simpl. destruct (open_rb libs p) as [[]|e1].
      * obs_all. rewrite Hq1, Hq2. simpl. split_and!; [lia..|by left].
      * destruct (Hrep e1) as [H1 H2]. obs_all. rewrite Hq1, Hq2, H2. simpl.
        split_and!; [done|lia|by right].
    + destruct (Hrep e1) as [H1 H2]. obs_all. rewrite Hq1, Hq2, H2. simpl.
      split_and!; [done|lia|by right].
  - destruct (job_log_no_dir libs cfg up env e0 Hd) as [-> _].
    destruct (Hrep e0) as [H1 H2]. obs_all. rewrite H2.
    split_and!; [done|simpl; lia|by right].
Qed.

(** X16. When the finished GIF cannot be opened for the download, the
    failure comes after the success message: the run shows the success
    message and the GIF, then the error message, and offers no download. *)
Theorem late_failure_after_success cfg up env d env0 p g msg :
  mkdtemp libs = Ok d →
  res (make_gif libs cfg up d env0) = Ok (p, g) →
  open_rb libs p = Raise (Exception msg) →
  offers (log (main_panel libs cfg true (Some up) env))
  = [StSuccess "🎉 GIF Generated Successfully!";
     StImage p ("Brain activity | Hemi: " +:+ hemi_selection cfg
                +:+ " | View: "
                +:+ String.concat ", " (view_selection cfg))] ∧
  errors (log (main_panel libs cfg true (Some up) env))
  = ["An error occurred during GIF generation: " +:+ msg] ∧
  downloads (log (main_panel libs cfg true (Some up) env)) = [] ∧
  res (main_panel libs cfg true (Some up) env) = Ok tt.
Proof.
  intros Hd Hg Ho.
  assert (res (make_gif libs cfg up d env) = Ok (p, g)) as Hg'.
  { by rewrite (pure_make_gif libs cfg up d env env0). }
  destruct (job_log libs cfg up env d Hd) as [-> ->].
  pose proof (make_gif_quiet libs cfg up d env) as [Hq1 Hq2]%quiet_log.
  pose proof (no_offer_offers _ (make_gif_no_offer libs cfg up d env)) as Hno.
  rewrite Hg'. simpl. rewrite Ho. simpl.
  split_and!; [|obs_all; by rewrite Hq2|obs_all; by rewrite Hq1|done].
  unfold offers in *. rewrite filter_cons_False by exact id.
  rewrite filter_app, Hno. done.
Qed.

(** ** The environment, lines 118-119 and 201-203 *)

(** X17. No run touches a variable of the environment other than the
    flag. *)
Theorem other_variables_untouched cfg button file env (k : string) :
  k ≠ FLAG →
  final_env (main_panel libs cfg button file env) !! k = env !! k.
Proof.
  intros Hk. destruct button; [|done]. destruct file as [up|]; [|done].
  simpl. rewrite render_job_final_env. by rewrite lookup_delete_ne.
Qed.

(** X18. When the flag is not in the environment before, a run leaves
    the environment exactly as it found it, also when the toggle made it
    set the flag. *)
Theorem environment_restored cfg button file env :
  env !! FLAG = None →
  final_env (main_panel libs cfg button file env) = env.
Proof.
  intros Hf. destruct button; [|done]. destruct file as [up|]; [|done].
  simpl. rewrite render_job_final_env. by apply delete_id.
Qed.

End Endings.

(** ** The order of the steps *)

Section Staged.
Context {float Stc Brain Image : Type}.
Variable libs : @Libs float Stc Brain Image.
Implicit Types (cfg : @Config float) (up : UploadedFile) (env : environ).
Implicit Types (ev : @event float Image).

Lemma staged_nil {A} (m : @M float Image A) lo hi :
  (∀ env, log (m env) = []) → staged lo hi m.
Proof. intros H env. rewrite H. split; constructor. Qed.

Lemma staged_ret {A} (a : A) lo hi :
  staged (float:=float) (Image:=Image) lo hi (ret a).
Proof. by apply staged_nil. Qed.

Lemma staged_emit ev lo hi :
  match stage ev with Some s => lo ≤ s ≤ hi | None => True end →
  staged lo hi (emit ev).
Proof.
  intros H env. unfold stages. simpl. destruct (stage ev) as [s|].
  - split; repeat constructor; lia.
  - split; constructor.
Qed.

Lemma staged_call {A} ev (r : result A) lo hi :
  match stage ev with Some s => lo ≤ s ≤ hi | None => True end →
  staged lo hi (call ev r).
Proof.
  intros H env. pose proof (staged_emit ev lo hi H env) as He.
  unfold call, bind, emit, lift in *. simpl in *.
  destruct r; simpl; by rewrite ?app_nil_r.
Qed.

Lemma staged_app (l1 l2 : list nat) lo mid hi :
  lo ≤ mid ≤ hi →
  StronglySorted (≤) l1 ∧ Forall (λ s, lo ≤ s ≤ mid) l1 →
  StronglySorted (≤) l2 ∧ Forall (λ s, mid ≤ s ≤ hi) l2 →
  StronglySorted (≤) (l1 ++ l2) ∧ Forall (λ s, lo ≤ s ≤ hi) (l1 ++ l2).
Proof.
  intros Hm [S1 F1] [S2 F2]. split.
  - apply StronglySorted_app_2; [|done..].
    intros x1 x2 H1 H2.
    rewrite Forall_forall in F1, F2.
    specialize (F1 x1 H1). specialize (F2 x2 H2). lia.
  - apply Forall_app. split.
    + eapply Forall_impl; [exact F1|]. simpl. lia.
    + eapply Forall_impl; [exact F2|]. simpl. lia.
Qed.

Lemma staged_bind {A B} (m : @M float Image A) (f : A → M B) lo mid hi :
  lo ≤ mid ≤ hi →
  staged lo mid m → (∀ a, staged mid hi (f a)) → staged lo hi (bind m f).
Proof.
  intros Hm H1 H2 env. unfold bind.
  specialize (H1 env). destruct (m env) as [env1 l1 [a|e]].
  - specialize (H2 a env1). destruct (f a env1) as [env2 l2 r]. simpl in *.
    unfold stages in *. rewrite omap_app. by apply (staged_app _ _ lo mid hi).
  - simpl in *. destruct H1 as [S1 F1]. split; [done|].
    eapply Forall_impl; [exact F1|]. simpl. lia.
Qed.

Lemma staged_try_except {A} (m : @M float Image A) h lo mid hi :
  lo ≤ mid ≤ hi →
  staged lo mid m → (∀ e, staged mid hi (h e)) →
  staged lo hi (try_except m h).
Proof.
  intros Hm H1 H2 env. unfold try_except.
  specialize (H1 env). destruct (m env) as [env1 l1 [a|[msg|msg]]].
  - simpl in *. destruct H1 as [S1 F1]. split; [done|].
    eapply Forall_impl; [exact F1|]. simpl. lia.
  - specialize (H2 (Exception msg) env1).
    destruct (h _ env1) as [env2 l2 r]. simpl in *.
    unfold stages in *. rewrite omap_app. by apply (staged_app _ _ lo mid hi).
  - simpl in *. destruct H1 as [S1 F1]. split; [done|].
    eapply Forall_impl; [exact F1|]. simpl. lia.
Qed.

Lemma staged_try_finally {A} (m : @M float Image A) f lo mid hi :
  lo ≤ mid ≤ hi →
  staged lo mid m → staged mid hi f → staged lo hi (try_finally m f).
Proof.
  intros Hm H1 H2 env. unfold try_finally.
  specialize (H1 env). destruct (m env) as [env1 l1 r1].
  specialize (H2 env1). destruct (f env1) as [env2 l2 [[]|e]]; simpl in *;
    unfold stages in *; rewrite omap_app; by apply (staged_app _ _ lo mid hi).
Qed.

Lemma staged_frame_loop total d ts : ∀ i brain files,
  staged 7 7 (frame_loop libs total d i ts brain files).
Proof.
  induction ts as [|t ts IH]; intros i brain files; simpl.
  - apply staged_ret.
  - apply (staged_bind _ _ 7 7 7); [lia|by apply staged_call|intros brain'].
    apply (staged_bind _ _ 7 7 7); [lia|by apply staged_call|intros img].
    apply (staged_bind _ _ 7 7 7); [lia|by apply staged_emit|intros _].
    apply (staged_bind _ _ 7 7 7); [lia|by apply staged_emit|intros _].
    apply IH.
Qed.

Lemma staged_imread_all files fs : staged 9 9 (imread_all libs files fs).
Proof.
  induction fs as [|f fs IH]; simpl.
  - apply staged_ret.
  - apply (staged_bind _ _ 9 9 9); [lia| |intros img].
    + apply (staged_bind _ _ 9 9 9); [lia|by apply staged_call|intros _].
      destruct (files !! f); by apply staged_nil.
    + apply (staged_bind _ _ 9 9 9); [lia|done|intros; apply staged_ret].
Qed.

Lemma staged_make_gif cfg up d : staged 1 10 (make_gif libs cfg up d).
Proof.
  unfold make_gif, get_fsaverage_path.
  apply (staged_bind _ _ 1 1 10); [lia|by apply staged_call|intros _].
  apply (staged_bind _ _ 1 1 10); [lia|by apply staged_emit|intros _].
  apply (staged_bind _ _ 1 1 10); [lia|by apply staged_emit|intros _].
  apply (staged_bind _ _ 1 2 10); [lia|apply staged_call; simpl; lia|intros _].
  apply (staged_bind _ _ 2 3 10); [lia| |intros subjects_dir].
  { apply (staged_bind _ _ 2 3 3); [lia|apply staged_call; simpl; lia|].
    intros fs_dir. apply staged_ret. }
  apply (staged_bind _ _ 3 4 10); [lia|apply staged_call; simpl; lia|intros stc].
  apply (staged_bind _ _ 4 4 10); [lia| |intros times_to_sample].
  { unfold slice_step. destruct (frame_step cfg); by apply staged_nil. }
  apply (staged_bind _ _ 4 5 10); [lia|apply staged_call; simpl; lia|intros brain].
  apply (staged_bind _ _ 5 6 10); [lia|apply staged_emit; simpl; lia|intros _].
  apply (staged_bind _ _ 6 6 10); [lia|by apply staged_emit|intros _].
  apply (staged_bind _ _ 6 6 10); [lia|by apply staged_call|intros _].
  apply (staged_bind _ _ 6 7 10); [lia| |intros bf].
  { intros env. destruct (staged_frame_loop (length times_to_sample)
      (d </> "frames") times_to_sample 0 brain ∅ env) as [S F].
    split; [done|]. eapply Forall_impl; [exact F|]. simpl. lia. }
  apply (staged_bind _ _ 7 8 10); [lia|apply staged_call; simpl; lia|intros _].
  apply (staged_bind _ _ 8 8 10); [lia|by apply staged_emit|intros _].
  apply (staged_bind _ _ 8 9 10); [lia| |intros images].
  { intros env. destruct (staged_imread_all bf.2
      (sorted (glob_frames libs (d </> "frames") bf.2)) env) as [S F].
    split; [done|]. eapply Forall_impl; [exact F|]. simpl. lia. }
  apply (staged_bind _ _ 9 10 10); [lia|apply staged_call; simpl; lia|intros _].
  apply (staged_bind _ _ 10 10 10); [lia|by apply staged_emit|intros _].
  apply staged_ret.
Qed.

Lemma staged_main_panel cfg button file :
  staged 0 16 (main_panel libs cfg button file).
Proof.
  destruct button; [|by apply staged_nil].
  destruct file as [up|]; [|apply staged_emit; simpl; lia].
  unfold main_panel, render_job.
  apply (staged_bind _ _ 0 0 16); [lia| |intros _].
  { destruct (transparent_bg cfg); by apply staged_nil. }
  apply (staged_try_finally _ _ 0 16 16); [lia| |].
  2:{ unfold cleanup. apply staged_nil. intros env.
      unfold bind, environ_contains, environ_del, ret.
      by case_bool_decide. }
  apply (staged_try_except _ _ 0 15 16); [lia| |].
  2:{ intros e. apply staged_emit. simpl. lia. }
  unfold with_block, with_TemporaryDirectory.
  apply (staged_bind _ _ 0 0 15); [lia|apply staged_call; simpl; lia|intros d].
  apply (staged_try_finally _ _ 0 14 15); [lia| |apply staged_emit; simpl; lia].
  apply (staged_bind _ _ 0 10 14); [lia| |intros pg].
  { intros env. destruct (staged_make_gif cfg up d env) as [S F].
    split; [done|]. eapply Forall_impl; [exact F|]. simpl. lia. }
  unfold display_and_download.
  apply (staged_bind _ _ 10 11 14); [lia|apply staged_emit; simpl; lia|intros _].
  apply (staged_bind _ _ 11 12 14); [lia|apply staged_emit; simpl; lia|intros _].
  apply (staged_bind _ _ 12 13 14); [lia|apply staged_call; simpl; lia|intros _].
  apply staged_emit. simpl. lia.
Qed.

(** X19. Every run goes through the steps of the render job in the
    order of the source and never back: of two events of a log, the
    earlier belongs to the same step as the later or to one before it.
    So the upload is saved before it is decoded, the figure is not used
    after [close], no frame is written once the frames are read back, and
    the temporary directory is removed after the download button was
    made. *)
Theorem steps_in_order cfg button file env :
  StronglySorted (≤) (stages (log (main_panel libs cfg button file env))).
Proof. apply (staged_main_panel cfg button file env). Qed.

End Staged.

(** ** When nothing fails *)

Section NoFailure.
Context {float Stc Brain Image : Type}.
Variable libs : @Libs float Stc Brain Image.
Implicit Types (cfg : @Config float) (up : UploadedFile) (env : environ).
Implicit Types (files : gmap string Image).

Lemma frame_loop_returns total d ts : ∀ i brain files env,
  (∀ b t, ∃ b', set_time libs b t = Ok b') →
  (∀ b p, ∃ img, save_image libs b p = Ok img) →
  ∃ bf, res (frame_loop libs total d i ts brain files env) = Ok bf.
Proof.
  induction ts as [|t ts IH]; intros i brain files env Hset Hsave; simpl.
  - by eexists.
  - unfold bind, call, bind, emit, lift.
    destruct (Hset brain t) as [b' ->].
    destruct (Hsave b' (d </> frame_name i)) as [img ->]. simpl.
    destruct (IH (S i) b' (<[d </> frame_name i := img]> files) env Hset Hsave)
      as [bf Hbf].
    destruct (frame_loop _ _ _ _ _ _ _ _) as [env2 lg2 r2].
    simpl in *. by exists bf.
Qed.

Lemma imread_all_returns files fs env :
  (∀ p, imread libs p = Ok tt) →
  Forall (λ p, is_Some (files !! p)) fs →
  ∃ images, res (imread_all libs files fs env) = Ok images.
Proof.
  intros Hread. induction 1 as [|f fs [img Hf] _ [images IH]]; simpl.
  - by eexists.
  - unfold bind, imread_file, call, bind, emit, lift, ret.
    rewrite Hread, Hf. simpl.
    destruct (imread_all _ _ _ _) as [env2 lg2 r2]. simpl in *.
    rewrite IH. by eexists.
Qed.

Lemma make_gif_returns cfg up d env :
  all_succeed libs → 1 ≤ frame_step cfg →
  ∃ pg, res (make_gif libs cfg up d env) = Ok pg.
Proof.
  intros (_ & Hwb & _ & Hmk & Hbk & [fs_dir Hfs] & Hrd & Hpl & Hset & Hsave
          & Hcl & Him & Hmim) Hstep.
  unfold make_gif, get_fsaverage_path, slice_step, call, bind, emit, lift,
    ret, raise.
  rewrite Hwb, Hbk, Hfs.
  destruct (Hrd (d </> name up) (getbuffer up)) as [stc ->].
  destruct (frame_step cfg) as [|k] eqn:Hk; [lia|].
  destruct (Hpl stc (plot_kwargs cfg (parent libs fs_dir))) as [brain ->].
  rewrite Hmk.
  destruct (frame_loop_returns (length (every_nth 0 (S k) (times libs stc)))
              (d </> "frames") (every_nth 0 (S k) (times libs stc)) 0 brain ∅
              env Hset Hsave) as [[b files] Hloop].
  destruct (frame_loop _ _ _ _ _ _ _ _) as [env2 lg2 r2]. simpl in Hloop.
  subst r2. simpl. rewrite Hcl.
  destruct (imread_all_returns files
              (sorted (glob_frames libs (d </> "frames") files)) env2 Him
              (glob_frames_present libs _ _)) as [images Hread].
  destruct (imread_all _ _ _ _) as [env3 lg3 r3]. simpl in Hread.
  subst r3. rewrite Hmim. by eexists.
Qed.

(** X20. When no call into the libraries fails and the stride is at
    least one, the job is successful: the script adds no failure of its
    own, and every file that [glob] lists can be read back. *)
Theorem no_failure_no_error cfg up env :
  all_succeed libs → 1 ≤ frame_step cfg →
  successful (log (main_panel libs cfg true (Some up) env)) ∧
  errors (log (main_panel libs cfg true (Some up) env)) = [] ∧
  res (main_panel libs cfg true (Some up) env) = Ok tt.
Proof.
  intros Hall Hstep.
  assert (successful (log (main_panel libs cfg true (Some up) env))) as Hs.
  { destruct Hall as ([d Hd] & Hall').
    assert (all_succeed libs) as Hall by (split; eauto).
    destruct (make_gif_returns cfg up d env Hall Hstep) as [[p g] Hg].
    destruct Hall' as (_ & Hrb & _).
    simpl. rewrite render_job_run.
    set (env0 := if transparent_bg cfg then _ else _).
    rewrite (with_block_make_gif_Ok libs cfg up env0 d env p g Hd Hg).
    rewrite Hrb. unfold successful. cbn [log]. obs.
    intros Hnil. apply app_eq_nil in Hnil as [_ Hnil]. discriminate Hnil. }
  split; [done|].
  by destruct (successful_job libs cfg up env Hs)
    as (d & stc & g & _ & _ & _ & _ & _ & _ & _ & _ & _ & _ & _ & He & Hr).
Qed.

End NoFailure.

(** The simulated installation never fails. *)
Lemma demo_all_succeed : all_succeed Demo.libs.
Proof. unfold all_succeed. simpl. split_and!; eauto. Qed.

(** [no_failure_no_error] on the simulated installation, at the greatest
    stride of the slider. *)
Lemma no_failure_no_error_witness :
  successful (log (main_panel Demo.libs (Demo.cfg 50 true "black" "rh") true
                     (Some (Demo.upload 120)) ∅)) ∧
  errors (log (main_panel Demo.libs (Demo.cfg 50 true "black" "rh") true
                 (Some (Demo.upload 120)) ∅)) = [] ∧
  res (main_panel Demo.libs (Demo.cfg 50 true "black" "rh") true
         (Some (Demo.upload 120)) ∅) = Ok tt.
Proof.
  assert (1 ≤ frame_step (Demo.cfg 50 true "black" "rh")) as Hstep
    by (simpl; lia).
  exact (no_failure_no_error Demo.libs (Demo.cfg 50 true "black" "rh")
           (Demo.upload 120) ∅ demo_all_succeed Hstep).
Defined.

(** ** More of the simulated installations *)

(** [frames_permute_stills] on the scenario of the specification. *)
Lemma frames_permute_stills_witness :
  ∃ g,
    (downloads (log (main_panel Demo.libs (Demo.cfg 20 false "white" "split")
                       true (Some (Demo.upload 100)) ∅))).*2 = [g] ∧
    frames g
    ≡ₚ stills (log (main_panel Demo.libs (Demo.cfg 20 false "white" "split")
                      true (Some (Demo.upload 100)) ∅)).
Proof.
  assert (successful (log (main_panel Demo.libs
            (Demo.cfg 20 false "white" "split") true
            (Some (Demo.upload 100)) ∅))) as Hs by (vm_compute; discriminate).
  assert (∀ d, mkdtemp Demo.libs = Ok d → has_magic d = false) as Hlit
    by (intros d [= <-]; reflexivity).
  exact (frames_permute_stills Demo.libs (Demo.cfg 20 false "white" "split")
           (Demo.upload 100) ∅ Hlit Hs).
Defined.

(** The progress bar and the steps of the scenario of the specification. *)
Example progress_and_steps_of_the_scenario :
  progress (log (main_panel Demo.libs (Demo.cfg 20 false "white" "split")
                   true (Some (Demo.upload 100)) ∅))
  = [(1, 5); (2, 5); (3, 5); (4, 5); (5, 5)] ∧
  stages (log (main_panel Demo.libs (Demo.cfg 20 false "white" "split")
                 true (Some (Demo.upload 100)) ∅))
  = [0; 1; 1; 2; 3; 4; 5; 6; 6; 6] ++ replicate 20 7
    ++ [8; 9; 9; 9; 9; 9; 10; 10; 11; 12; 13; 14; 15].
Proof. vm_compute. repeat split. Qed.

(** [time_points_in_order] when the renderer is lost at the fourth frame:
    four time points were shown, three screenshots taken. *)
Lemma time_points_in_order_witness :
  shown (log (main_panel (Faulty.libs 3 false)
                (Demo.cfg 20 false "white" "split") true
                (Some (Demo.upload 100)) ∅))
  = [0 # 1000; 20 # 1000; 40 # 1000; 60 # 1000]%Q ∧
  shown (log (main_panel (Faulty.libs 3 false)
                (Demo.cfg 20 false "white" "split") true
                (Some (Demo.upload 100)) ∅))
    `prefix_of` every_nth 0 20 ((λ i, Qmake (Z.of_nat i) 1000) <$> seq 0 100) ∧
  length (stills (log (main_panel (Faulty.libs 3 false)
                         (Demo.cfg 20 false "white" "split") true
                         (Some (Demo.upload 100)) ∅))) = 3.
Proof.
  assert (mkdtemp (Faulty.libs 3 false) = Ok "/tmp/tmpk3x9") as Hd
    by reflexivity.
  assert (read_source_estimate (Faulty.libs 3 false)
            ("/tmp/tmpk3x9" </> name (Demo.upload 100))
            (getbuffer (Demo.upload 100))
          = Ok ((λ i, Qmake (Z.of_nat i) 1000) <$> seq 0 100)) as Hstc
    by (vm_compute; reflexivity).
  destruct (time_points_in_order (Faulty.libs 3 false)
              (Demo.cfg 20 false "white" "split") (Demo.upload 100) ∅
              "/tmp/tmpk3x9" ((λ i, Qmake (Z.of_nat i) 1000) <$> seq 0 100)
              Hd Hstc) as (Hp & _ & _ & _).
  split; [vm_compute; reflexivity|]. split; [exact Hp|].
  vm_compute. reflexivity.
Defined.

(** [no_time_points_no_frames] on an upload without time points. *)
Lemma no_time_points_no_frames_witness :
  stills (log (main_panel Demo.libs (Demo.cfg 20 false "white" "split") true
                 (Some (Demo.upload 0)) ∅)) = [] ∧
  progress (log (main_panel Demo.libs (Demo.cfg 20 false "white" "split") true
                   (Some (Demo.upload 0)) ∅)) = [] ∧
  encoded (log (main_panel Demo.libs (Demo.cfg 20 false "white" "split") true
                  (Some (Demo.upload 0)) ∅))
  = [([], (1 # 10)%Q, 0%Z)].
Proof.
  assert (mkdtemp Demo.libs = Ok "/tmp/tmpk3x9") as Hd by reflexivity.
  assert (read_source_estimate Demo.libs
            ("/tmp/tmpk3x9" </> name (Demo.upload 0))
            (getbuffer (Demo.upload 0)) = Ok []) as Hstc
    by (vm_compute; reflexivity).
  assert (times Demo.libs [] = []) as Ht by reflexivity.
  assert (successful (log (main_panel Demo.libs
            (Demo.cfg 20 false "white" "split") true
            (Some (Demo.upload 0)) ∅))) as Hs by (vm_compute; discriminate).
  destruct (no_time_points_no_frames Demo.libs
              (Demo.cfg 20 false "white" "split") (Demo.upload 0) ∅
              "/tmp/tmpk3x9" [] Hd Hstc Ht) as (_ & Hst & Hpr & Hsucc).
  destruct (Hsucc Hs) as [Hen _].
  split; [exact Hst|]. split; [exact Hpr|exact Hen].
Defined.

(** [announced_count] on the scenario of the specification. *)
Lemma announced_count_witness :
  infos (log (main_panel Demo.libs (Demo.cfg 20 false "white" "split") true
                (Some (Demo.upload 100)) ∅))
  = ["Generating 5 frames..."].
Proof.
  assert (successful (log (main_panel Demo.libs
            (Demo.cfg 20 false "white" "split") true
            (Some (Demo.upload 100)) ∅))) as Hs by (vm_compute; discriminate).
  rewrite (announced_count Demo.libs (Demo.cfg 20 false "white" "split")
             (Demo.upload 100) ∅ Hs).
  vm_compute. reflexivity.
Defined.

(** [render_call_arguments] on the scenario of the specification. *)
Lemma render_call_arguments_witness :
  renders (log (main_panel Demo.libs (Demo.cfg 20 false "white" "split") true
                  (Some (Demo.upload 100)) ∅))
  = [plot_kwargs (Demo.cfg 20 false "white" "split")
       "/home/user/mne_data/MNE-fsaverage-data"].
Proof.
  assert (length (renders (log (main_panel Demo.libs
            (Demo.cfg 20 false "white" "split") true
            (Some (Demo.upload 100)) ∅))) = 1) as Hlen
    by (vm_compute; reflexivity).
  assert (renders (log (main_panel Demo.libs
            (Demo.cfg 20 false "white" "split") true
            (Some (Demo.upload 100)) ∅)) ≠ []) as Hne.
  { intros Heq. rewrite Heq in Hlen. discriminate Hlen. }
  destruct (render_call_arguments Demo.libs
              (Demo.cfg 20 false "white" "split") true
              (Some (Demo.upload 100)) ∅ Hne)
    as (up & d & fs_dir & stc & _ & _ & _ & Hf & _ & _ & Hr & _).
  injection Hf as <-. exact Hr.
Defined.

(** [temp_dir_removed] when the renderer is lost at the fourth frame. *)
Lemma temp_dir_removed_witness :
  ∃ pre tail,
    log (main_panel (Faulty.libs 3 false) (Demo.cfg 20 false "white" "split")
           true (Some (Demo.upload 100)) ∅)
    = pre ++ RmTree "/tmp/tmpk3x9" :: tail ∧
    removed pre = [] ∧
    (tail = [] ∨ ∃ body, tail = [StError body]).
Proof.
  assert (mkdtemp (Faulty.libs 3 false) = Ok "/tmp/tmpk3x9") as Hd
    by reflexivity.
  exact (temp_dir_removed (Faulty.libs 3 false)
           (Demo.cfg 20 false "white" "split") (Demo.upload 100) ∅
           "/tmp/tmpk3x9" Hd).
Defined.

(** [only_base_exceptions_escape] when decoding is interrupted. *)
Lemma only_base_exceptions_escape_witness :
  res (main_panel
         (Demo.libs_reading
            (λ _ _, Raise (BaseException "KeyboardInterrupt")))
         (Demo.cfg 20 false "white" "split") true
         (Some (Demo.upload 100)) ∅)
  = Raise (BaseException "KeyboardInterrupt") ∧
  ∃ msg, BaseException "KeyboardInterrupt" = BaseException msg.
Proof.
  assert (res (main_panel
                 (Demo.libs_reading
                    (λ _ _, Raise (BaseException "KeyboardInterrupt")))
                 (Demo.cfg 20 false "white" "split") true
                 (Some (Demo.upload 100)) ∅)
          = Raise (BaseException "KeyboardInterrupt")) as Hr
    by (vm_compute; reflexivity).
  split; [exact Hr|].
  exact (only_base_exceptions_escape
           (Demo.libs_reading
              (λ _ _, Raise (BaseException "KeyboardInterrupt")))
           (Demo.cfg 20 false "white" "split") true
           (Some (Demo.upload 100)) ∅ (BaseException "KeyboardInterrupt") Hr).
Defined.

(** [late_failure_after_success] when the GIF is locked. *)
Lemma late_failure_after_success_witness :
  errors (log (main_panel (Faulty.libs 1000 true)
                 (Demo.cfg 20 false "white" "split") true
                 (Some (Demo.upload 100)) ∅))
  = ["An error occurred during GIF generation: Permission denied"] ∧
  length (offers (log (main_panel (Faulty.libs 1000 true)
                         (Demo.cfg 20 false "white" "split") true
                         (Some (Demo.upload 100)) ∅))) = 2 ∧
  downloads (log (main_panel (Faulty.libs 1000 true)
                    (Demo.cfg 20 false "white" "split") true
                    (Some (Demo.upload 100)) ∅)) = [].
Proof.
  assert (mkdtemp (Faulty.libs 1000 true) = Ok "/tmp/tmpk3x9") as Hd
    by reflexivity.
  assert (∃ g, res (make_gif (Faulty.libs 1000 true)
                      (Demo.cfg 20 false "white" "split") (Demo.upload 100)
                      "/tmp/tmpk3x9" ∅)
               = Ok ("/tmp/tmpk3x9/brain_animation.gif", g)) as [g Hg]
    by (eexists; vm_compute; reflexivity).
  assert (open_rb (Faulty.libs 1000 true) "/tmp/tmpk3x9/brain_animation.gif"
          = Raise (Exception "Permission denied")) as Ho by reflexivity.
  destruct (late_failure_after_success (Faulty.libs 1000 true)
              (Demo.cfg 20 false "white" "split") (Demo.upload 100) ∅
              "/tmp/tmpk3x9" ∅ "/tmp/tmpk3x9/brain_animation.gif" g
              "Permission denied" Hd Hg Ho) as (Hof & He & Hdl & _).
  split; [exact He|]. split; [by rewrite Hof|exact Hdl].
Defined.

(** [other_variables_untouched] for [PATH], toggle on. *)
Lemma other_variables_untouched_witness :
  final_env (main_panel Demo.libs (Demo.cfg 20 true "white" "split") true
               (Some (Demo.upload 100))
               {["PATH" := "/usr/bin"; FLAG := "1"]}) !! "PATH"
  = Some "/usr/bin".
Proof.
  assert ("PATH" ≠ FLAG) as Hk by discriminate.
  rewrite (other_variables_untouched Demo.libs
             (Demo.cfg 20 true "white" "split") true
             (Some (Demo.upload 100))
             {["PATH" := "/usr/bin"; FLAG := "1"]} "PATH" Hk).
  vm_compute. reflexivity.
Defined.

(** [environment_restored] with the toggle on. *)
Lemma environment_restored_witness :
  final_env (main_panel Demo.libs (Demo.cfg 20 true "white" "split") true
               (Some (Demo.upload 100)) {["PATH" := "/usr/bin"]})
  = {["PATH" := "/usr/bin"]}.
Proof.
  assert (({["PATH" := "/usr/bin"]} : environ) !! FLAG = None) as Hf
    by (vm_compute; reflexivity).
  exact (environment_restored Demo.libs (Demo.cfg 20 true "white" "split")
           true (Some (Demo.upload 100)) {["PATH" := "/usr/bin"]} Hf).
Defined.
